(** * Laytime Intelligence front end: extraction, validation, persistence

    A shallow embedding of the JavaScript of the front end
    (pages/LayspanDashboard, pages/SavedEvents, components/EventTable,
    services/api.js, utils/dataCleanup.js) and the properties of its
    extraction / validation / persistence pipeline.

    JavaScript values are modelled by the inductive [JS.value]; objects are
    property lists in insertion order.  Strings are byte strings, so the
    development speaks about ASCII text: [length] and [trim] agree with
    JavaScript on such text. *)

From Stdlib Require Import String Ascii List Bool Arith ZArith QArith Lia.
From Stdlib Require Import DecimalString.
Import ListNotations.
Set Warnings "-register-all".
Close Scope Q_scope.
Local Open Scope string_scope.
Local Open Scope list_scope.

(* ===================================================================== *)
(** ** JavaScript values *)
(* ===================================================================== *)

Module JS.

(** A number is NaN, an infinity or a finite value; a finite double is
    represented by the rational it denotes (the sign of zero is not kept). *)
Inductive number : Type :=
| NaN
| Infinity (negative : bool)
| Finite (q : Q).

Inductive value : Type :=
| VUndef
| VNull
| VBool (b : bool)
| VNum (n : number)
| VStr (s : string)
| VArr (elems : list value)
| VObj (props : list (string * value)).

(** The own properties of a plain object, in insertion order. *)
Definition object : Type := list (string * value).

Definition ofNat (n : nat) : value := VNum (Finite (inject_Z (Z.of_nat n))).
Definition ofZ (z : Z) : value := VNum (Finite (inject_Z z)).

(** ToBoolean *)
Definition numTruthy (n : number) : bool :=
  match n with
  | NaN => false
  | Infinity _ => true
  | Finite q => negb (Qeq_bool q 0)
  end.

Definition truthy (v : value) : bool :=
  match v with
  | VUndef | VNull => false
  | VBool b => b
  | VNum n => numTruthy n
  | VStr s => negb (s =? EmptyString)
  | VArr _ | VObj _ => true
  end.

(** [a || b] and [a && b] on values. *)
Definition or_else (a b : value) : value := if truthy a then a else b.
Definition and_then (a b : value) : value := if truthy a then b else a.

(** [v === 'literal'] *)
Definition strictEqStr (v : value) (lit : string) : bool :=
  match v with
  | VStr s => s =? lit
  | _ => false
  end.

(** Own-property lookup, assignment [o[k] = v] and the spread
    [{...o, k: v}]: an existing key keeps its place, a new key goes last. *)
Fixpoint lookup (k : string) (o : object) : option value :=
  match o with
  | [] => None
  | (k', v) :: o' => if k =? k' then Some v else lookup k o'
  end.

Definition prop (o : object) (k : string) : value :=
  match lookup k o with
  | Some v => v
  | None => VUndef
  end.

Fixpoint setProp (k : string) (v : value) (o : object) : object :=
  match o with
  | [] => [(k, v)]
  | (k', v') :: o' =>
      if k =? k' then (k, v) :: o' else (k', v') :: setProp k v o'
  end.

Definition hasKey (o : object) (k : string) : bool :=
  match lookup k o with
  | Some _ => true
  | None => false
  end.

(** Exceptions and the result of code that may throw. *)
Inductive exn : Type :=
| TypeError
| SyntaxError
| Error (message : string).

Inductive result (A : Type) : Type :=
| Ok (a : A)
| Throw (e : exn).
Arguments Ok {A} a.
Arguments Throw {A} e.

Definition bind {A B : Type} (m : result A) (f : A -> result B) : result B :=
  match m with
  | Ok a => f a
  | Throw e => Throw e
  end.

(** [try { m } catch { h }] *)
Definition try_catch {A : Type} (m : result A) (h : exn -> A) : A :=
  match m with
  | Ok a => a
  | Throw e => h e
  end.

Definition catch {A : Type} (m : result A) (h : exn -> result A) : result A :=
  match m with
  | Ok a => Ok a
  | Throw e => h e
  end.

Fixpoint mapM {A B : Type} (f : A -> result B) (l : list A) : result (list B) :=
  match l with
  | [] => Ok []
  | a :: l' =>
      bind (f a) (fun b => bind (mapM f l') (fun bs => Ok (b :: bs)))
  end.

(** The property read [v.k].  The program reads fixed identifier keys
    only (vessel, events, name, start_time, length, ...); none of them is
    an array index or a prototype member except [length] of arrays and
    strings.  Reading a property of null or undefined throws. *)
Definition get (v : value) (k : string) : value :=
  match v with
  | VObj o => prop o k
  | VArr l => if k =? "length" then ofNat (List.length l) else VUndef
  | VStr s => if k =? "length" then ofNat (String.length s) else VUndef
  | _ => VUndef
  end.

Definition getProp (v : value) (k : string) : result value :=
  match v with
  | VUndef | VNull => Throw TypeError
  | _ => Ok (get v k)
  end.

(** The conversions that belong to the JavaScript engine and not to the
    repository: text to number and number to text. *)
Class Host : Type := {
  parseFloat : string -> number;
  StringToNumber : string -> number;
  NumberToString : number -> string
}.

Section Conversions.
Context {host : Host}.

(** ToString; an array prints as its elements joined by commas, with
    null and undefined elements printed as nothing. *)
Fixpoint ToString (v : value) : string :=
  match v with
  | VUndef => "undefined"
  | VNull => "null"
  | VBool true => "true"
  | VBool false => "false"
  | VNum n => NumberToString n
  | VStr s => s
  | VArr l =>
      String.concat ","
        (map (fun x => match x with
                       | VUndef | VNull => EmptyString
                       | _ => ToString x
                       end) l)
  | VObj _ => "[object Object]"
  end.

(** [array.join(sep)] *)
Definition join (sep : string) (l : list value) : string :=
  String.concat sep
    (map (fun x => match x with
                   | VUndef | VNull => EmptyString
                   | _ => ToString x
                   end) l).

(** ToNumber *)
Definition ToNumber (v : value) : number :=
  match v with
  | VUndef => NaN
  | VNull => Finite 0
  | VBool b => Finite (if b then 1 else 0)
  | VNum n => n
  | VStr s => StringToNumber s
  | VArr _ | VObj _ => StringToNumber (ToString v)
  end.

(** [v > 0] *)
Definition gtZero (v : value) : bool :=
  match ToNumber v with
  | NaN => false
  | Infinity negative => negb negative
  | Finite q => negb (Qle_bool q 0)
  end.

(** The global [parseFloat(v)]: the argument is converted to text first. *)
Definition parseFloatOf (v : value) : value := VNum (parseFloat (ToString v)).

End Conversions.

(** [JSON.parse(JSON.stringify(v))]: properties holding undefined are
    dropped, undefined array elements and non-finite numbers become null. *)
Fixpoint jsonClone (v : value) : value :=
  match v with
  | VUndef => VNull
  | VNum NaN => VNull
  | VNum (Infinity _) => VNull
  | VArr l => VArr (map jsonClone l)
  | VObj o =>
      VObj ((fix props (o : object) : object :=
               match o with
               | [] => []
               | (_, VUndef) :: o' => props o'
               | (k, x) :: o' => (k, jsonClone x) :: props o'
               end) o)
  | _ => v
  end.

(** The properties of the clone of an object. *)
Definition cloneProps (o : object) : object :=
  match jsonClone (VObj o) with
  | VObj o' => o'
  | _ => []
  end.

(** Text primitives of the engine used by the program. *)
Definition dquote : string := String "034"%char EmptyString.
Definition newline : string := String "010"%char EmptyString.

(** [s.split(sep)] for a one-character separator. *)
Fixpoint split (sep : ascii) (s : string) : list string :=
  match s with
  | EmptyString => [EmptyString]
  | String c s' =>
      if Ascii.eqb c sep then EmptyString :: split sep s'
      else match split sep s' with
           | [] => [String c EmptyString]
           | w :: ws => String c w :: ws
           end
  end.

(** White space: tab, line feed, vertical tab, form feed, carriage
    return, space. *)
Definition isSpace (c : ascii) : bool :=
  match nat_of_ascii c with
  | 9 | 10 | 11 | 12 | 13 | 32 => true
  | _ => false
  end.

Fixpoint trimStart (s : string) : string :=
  match s with
  | EmptyString => EmptyString
  | String c s' => if isSpace c then trimStart s' else s
  end.

Fixpoint trimEnd (s : string) : string :=
  match s with
  | EmptyString => EmptyString
  | String c s' =>
      match trimEnd s' with
      | EmptyString => if isSpace c then EmptyString else String c EmptyString
      | t => String c t
      end
  end.

Definition trim (s : string) : string := trimEnd (trimStart s).

(** [s.includes(c)] for a one-character needle. *)
Fixpoint includes (c : ascii) (s : string) : bool :=
  match s with
  | EmptyString => false
  | String c' s' => Ascii.eqb c' c || includes c s'
  end.

(** [s.replace(/c/g, by)] for a one-character pattern. *)
Fixpoint replaceAll (c : ascii) (by_ : string) (s : string) : string :=
  match s with
  | EmptyString => EmptyString
  | String c' s' =>
      if Ascii.eqb c' c then by_ ++ replaceAll c by_ s'
      else String c' (replaceAll c by_ s')
  end.

(** [s.replace(/\/$/, '')]: one trailing slash is removed. *)
Fixpoint stripTrailingSlash (s : string) : string :=
  match s with
  | EmptyString => EmptyString
  | String c s' =>
      match s' with
      | EmptyString => if Ascii.eqb c "/" then EmptyString else s
      | _ => String c (stripTrailingSlash s')
      end
  end.

(** The decimal text of an array index. *)
Definition indexKey (i : nat) : string := NilEmpty.string_of_uint (Nat.to_uint i).

Fixpoint indexed (i : nat) (l : list value) : object :=
  match l with
  | [] => []
  | x :: l' => (indexKey i, x) :: indexed (S i) l'
  end.

Definition chars (s : string) : list value :=
  map (fun c => VStr (String c EmptyString)) (list_ascii_of_string s).

(** The own enumerable properties copied by [{...v}]. *)
Definition spread (v : value) : object :=
  match v with
  | VObj o => o
  | VArr l => indexed 0 l
  | VStr s => indexed 0 (chars s)
  | _ => []
  end.

(** [a[i] = v] on an array: an index past the end extends the array, the
    skipped positions read as undefined. *)
Fixpoint arraySet (l : list value) (i : nat) (v : value) : list value :=
  match l, i with
  | [], _ => repeat VUndef i ++ [v]
  | _ :: l', 0 => v :: l'
  | x :: l', S i' => x :: arraySet l' i' v
  end.

(** [a[i]] *)
Definition arrayGet (l : list value) (i : nat) : value := nth i l VUndef.

(** [v === n] for a number [n]: NaN equals nothing, finite numbers
    are compared by value. *)
Definition numEq (a b : number) : bool :=
  match a, b with
  | Finite p, Finite q => Qeq_bool p q
  | Infinity s, Infinity t => Bool.eqb s t
  | _, _ => false
  end.

Definition strictEqNum (v : value) (n : number) : bool :=
  match v with
  | VNum m => numEq m n
  | _ => false
  end.

(** [s.toLowerCase()] on ASCII text. *)
Definition lowerChar (c : ascii) : ascii :=
  let n := nat_of_ascii c in
  if (65 <=? n)%nat && (n <=? 90)%nat then ascii_of_nat (n + 32) else c.

Fixpoint toLowerCase (s : string) : string :=
  match s with
  | EmptyString => EmptyString
  | String c s' => String (lowerChar c) (toLowerCase s')
  end.

(** [hay.includes(needle)] *)
Fixpoint includesStr (needle hay : string) : bool :=
  String.prefix needle hay
  || match hay with
     | EmptyString => false
     | String _ hay' => includesStr needle hay'
     end.

(** [l.filter(f)] and [l.map(f)] for a callback that may throw. *)
Fixpoint filterM {A : Type} (f : A -> result bool) (l : list A) : result (list A) :=
  match l with
  | [] => Ok []
  | a :: l' =>
      bind (f a) (fun keep =>
      bind (filterM f l') (fun rest => Ok (if keep then a :: rest else rest)))
  end.

End JS.

Declare Scope js_scope.
Delimit Scope js_scope with js.
Notation "x <- m ;; k" := (JS.bind m (fun x => k))
  (at level 61, m at next level, right associativity) : js_scope.
Notation "a ||| b" := (JS.or_else a b)
  (at level 50, left associativity) : js_scope.
Local Open Scope js_scope.

(* ===================================================================== *)
(** ** utils/dataCleanup.js *)
(* ===================================================================== *)

Module DataCleanup.
Import JS.
Section WithHost.
Context {host : Host}.

(** [data && data.vessel && data.events && data.events.length > 0]:
    the first falsy operand, or the final comparison. *)
Definition validateExtractedData (data : value) : value :=
  and_then data
    (and_then (get data "vessel")
       (and_then (get data "events")
          (VBool (gtZero (get (get data "events") "length"))))).

(** The filter callback [event => event && event.name]. *)
Definition keepEvent (event : value) : bool :=
  truthy (and_then event (get event "name")).

(** [events?.filter(keep)]: undefined for a null or undefined receiver,
    the filtered array for an array; any other receiver has no callable
    [filter]. *)
Definition optionalFilter (keep : value -> bool) (events : value) : result value :=
  match events with
  | VUndef | VNull => Ok VUndef
  | VArr l => Ok (VArr (filter keep l))
  | _ => Throw TypeError
  end.

Definition sanitizeDataBeforeSave (data : value) : result value :=
  if negb (truthy data) then Ok VNull
  else
    filtered <- optionalFilter keepEvent (get data "events") ;;
    Ok (VObj (setProp "events" (filtered ||| VArr []) (spread data))).

End WithHost.
End DataCleanup.

(* ===================================================================== *)
(** ** components/EventTable.jsx *)
(* ===================================================================== *)

Module EventTable.
Import JS.

(** [!start || !end || start === '--:--' || end === '--:--' ||
     start === '00:00' && end === '00:00'] on the two keys the table
    reads; [&&] binds tighter than [||] in both languages. *)
Definition isMissingTime (event : value) : result bool :=
  start <- getProp event "start_time" ;;
  end_ <- getProp event "end_time" ;;
  Ok (negb (truthy start) || negb (truthy end_)
      || strictEqStr start "--:--" || strictEqStr end_ "--:--"
      || strictEqStr start "00:00" && strictEqStr end_ "00:00").

(** The three cells of a row that is not being edited. *)
Definition nameCell (e : value) : result value :=
  name <- getProp e "name" ;;
  legacy <- getProp e "event" ;;
  Ok (name ||| legacy).

Definition startCell (e : value) : result value := getProp e "start_time".
Definition endCell (e : value) : result value := getProp e "end_time".

(** [handleEdit]: the edit buffer opened on a row. *)
Definition handleEdit (event : value) : result value :=
  name <- nameCell event ;;
  start_time <- getProp event "start_time" ;;
  end_time <- getProp event "end_time" ;;
  Ok (VObj [("name", name); ("start_time", start_time); ("end_time", end_time)]).

(** [handleSave]: the edit buffer goes to the callback of the page, when
    there is one; the row leaves the edit mode in any case. *)
Definition handleSave {A : Type} (onEventUpdate : option (nat -> value -> A))
    (index : nat) (editData : value) : option A :=
  match onEventUpdate with
  | Some update => Some (update index editData)
  | None => None
  end.

End EventTable.

(* ===================================================================== *)
(** ** services/api.js *)
(* ===================================================================== *)

Module Api.
Import JS.

(** What [fetch] resolves to: the status flag and the outcome of
    [response.json()]. *)
Record response : Type := Response {
  ok : bool;
  json : result value
}.

Section WithHost.
Context {host : Host}.

(** [EXTRACTOR_URL] is the configured text or undefined; [fetch url body]
    is the outcome of the request, a rejection being a thrown error. *)
Definition extractEvents (EXTRACTOR_URL : option string)
    (fetch : string -> value -> result response) (formData : value)
  : result value :=
  match EXTRACTOR_URL with
  | Some url =>
      if negb (url =? EmptyString) then
        catch
          (response <- fetch (stripTrailingSlash url ++ "/extract")%string formData ;;
           if negb (ok response) then Throw (Error "Extraction failed")
           else
             data <- json response ;;
             vessel <- getProp data "vessel" ;;
             cargo <- getProp data "cargo" ;;
             port <- getProp data "port" ;;
             events <- getProp data "events" ;;
             Ok (VObj [("vessel", vessel ||| VStr "Unknown Vessel");
                       ("cargo", cargo ||| VStr EmptyString);
                       ("port", port ||| VStr EmptyString);
                       ("events", match events with
                                  | VArr _ => events
                                  | _ => VArr []
                                  end)]))
          (fun _ => Throw (Error "Extraction service unavailable"))
      else Throw (Error "No extraction service configured")
  | None => Throw (Error "No extraction service configured")
  end.

(** The value callback of [convertToCSV]: a string holding a comma or a
    double quote is wrapped in quotes with its quotes doubled. *)
Definition escapeField (v : value) : value :=
  match v with
  | VStr s =>
      if includes "," s || includes "034" s
      then VStr (dquote ++ replaceAll "034" (dquote ++ dquote) s ++ dquote)
      else v
  | _ => v
  end.

(** [convertToCSV] on an array of row objects; the header is the key list
    of the first row. *)
Definition convertToCSV (data : list object) : string :=
  match data with
  | [] => EmptyString
  | first :: _ =>
      let headers := map fst first in
      let csvRows :=
        String.concat "," headers
        :: map (fun row =>
                  join "," (map (fun header => escapeField (prop row header)) headers))
             data in
      String.concat newline csvRows
  end.

End WithHost.
End Api.

(* ===================================================================== *)
(** ** pages/LayspanDashboard.jsx *)
(* ===================================================================== *)

Module Dashboard.
Import JS.
Import DataCleanup.

(** The readings of the clock taken by one save: [Date.now()] and the
    three [new Date()] of the title, the date and the creation stamp. *)
Record clock : Type := Clock {
  Date_now : Z;
  title_toLocaleDateString : string;
  date_toISOString : string;
  createdAt_toISOString : string
}.

(** The entry [saved_calculations] of localStorage.  A stored text is
    represented by what [JSON.parse] makes of it: [Absent] is a missing
    entry or the empty text (both falsy), [Unparsable] a text on which
    [JSON.parse] throws, [Document v] a text that parses to [v]. *)
Inductive item : Type :=
| Absent
| Unparsable
| Document (v : value).

(** [existingData ? JSON.parse(existingData) : []] *)
Definition parseOrEmpty (existingData : item) : result value :=
  match existingData with
  | Absent => Ok (VArr [])
  | Unparsable => Throw SyntaxError
  | Document v => Ok v
  end.

(** [localStorage.setItem(key, JSON.stringify(v))] *)
Definition setItem (v : value) : item := Document (jsonClone v).

(** The notifications of [saveToLaytime]. *)
Inductive saveAlert : Type :=
| NoDataToSave
| InvalidOrIncomplete
| SavedSuccessfully
| ErrorSaving.

(** The notifications of [processCsvFile], or the new page state. *)
Inductive csvOutcome : Type :=
| SetExtractedData (vesselData : value)
| CouldNotExtract
| ErrorProcessingCsv.

Section WithHost.
Context {host : Host}.

(** *** The editable event list *)

(** The object literal [{...old, name, start, end, start_time, end_time}];
    the keys are written in this order. *)
Definition replacedEvent (old name start_time end_time : value) : object :=
  setProp "end_time" end_time
    (setProp "start_time" start_time
       (setProp "end" end_time
          (setProp "start" start_time
             (setProp "name" name (spread old))))).

Definition handleEventUpdate (extractedData : value) (index : nat)
    (updatedEvent : value) : result value :=
  if truthy (and_then extractedData (get extractedData "events")) then
    updatedEvents <-
      match get extractedData "events" with
      | VArr l => Ok l
      | VStr s => Ok (chars s)
      | _ => Throw TypeError
      end ;;
    name <- getProp updatedEvent "name" ;;
    start_time <- getProp updatedEvent "start_time" ;;
    end_time <- getProp updatedEvent "end_time" ;;
    let replaced :=
      VObj (replacedEvent (arrayGet updatedEvents index) name start_time end_time) in
    Ok (VObj (setProp "events" (VArr (arraySet updatedEvents index replaced))
                (spread extractedData)))
  else Ok extractedData.

(** [events.filter((_, i) => i !== index)] *)
Fixpoint removeAt (l : list value) (index : nat) : list value :=
  match l, index with
  | [], _ => []
  | _ :: l', 0 => l'
  | x :: l', S i => x :: removeAt l' i
  end.

Definition handleEventDelete (extractedData : value) (index : nat) : result value :=
  if truthy (and_then extractedData (get extractedData "events")) then
    match get extractedData "events" with
    | VArr l =>
        Ok (VObj (setProp "events" (VArr (removeAt l index)) (spread extractedData)))
    | _ => Throw TypeError
    end
  else Ok extractedData.

(** *** The CSV path *)

(** [headers.forEach((header, index) => row[header] = values[index] || '')] *)
Fixpoint forEachHeader (headers : list string) (index : nat)
    (values : list string) (row : object) : object :=
  match headers with
  | [] => row
  | header :: rest =>
      forEachHeader rest (S index) values
        (setProp header (arrayGet (map VStr values) index ||| VStr EmptyString) row)
  end.

Definition parseRow (headers : list string) (line : string) : object :=
  forEachHeader headers 0 (map trim (split "," line)) [].

(** The test of the vessel scan. *)
Definition hasVessel (row : object) : bool :=
  truthy (prop row "Vessel" ||| prop row "vessel" ||| prop row "VESSEL"
          ||| prop row "Vessel Name" ||| prop row "vessel_name").

(** [for (let i = 0; i < Math.min(5, csvData.length); i++)] with its
    [break]; [steps] counts the iterations that remain.  Inside the loop
    [i] is below the length, so [csvData[i]] is a row. *)
Fixpoint vesselLoop (csvData : list object) (i steps : nat) : option object :=
  match steps with
  | 0 => None
  | S steps' =>
      match nth_error csvData i with
      | Some row =>
          if hasVessel row then Some row else vesselLoop csvData (S i) steps'
      | None => None
      end
  end.

Definition isEventRow (row : object) : bool :=
  truthy (prop row "Event" ||| prop row "event" ||| prop row "Event Name").

Definition toEvent (row : object) : value :=
  VObj [("name", prop row "Event" ||| prop row "event" ||| prop row "Event Name"
                 ||| VStr "Unknown Event");
        ("start", prop row "Start Time" ||| prop row "start_time" ||| prop row "Start"
                  ||| VStr "00:00");
        ("end", prop row "End Time" ||| prop row "end_time" ||| prop row "End"
                ||| VStr "00:00")].

Definition vesselField (vesselRow : object) : value :=
  prop vesselRow "Vessel" ||| prop vesselRow "vessel" ||| prop vesselRow "VESSEL"
  ||| prop vesselRow "Vessel Name" ||| prop vesselRow "vessel_name"
  ||| VStr "Unknown Vessel".

Definition extractVesselDataFromCsv (csvData : list object) : value :=
  match csvData with
  | [] => VNull
  | first :: _ =>
      let vesselRow :=
        match vesselLoop csvData 0 (Nat.min 5 (List.length csvData)) with
        | Some row => row
        | None => first
        end in
      VObj
        [("vessel", vesselField vesselRow);
         ("voyageFrom", prop vesselRow "Voyage From" ||| prop vesselRow "voyage_from"
                        ||| prop vesselRow "From" ||| VStr "Unknown");
         ("voyageTo", prop vesselRow "Voyage To" ||| prop vesselRow "voyage_to"
                      ||| prop vesselRow "To" ||| VStr "Unknown");
         ("cargo", prop vesselRow "Cargo" ||| prop vesselRow "cargo"
                   ||| prop vesselRow "Cargo Type" ||| VStr "Unknown Cargo");
         ("port", prop vesselRow "Port" ||| prop vesselRow "port"
                  ||| prop vesselRow "Port Name" ||| VStr "Unknown Port");
         ("operation", prop vesselRow "Operation" ||| prop vesselRow "operation"
                       ||| VStr "Discharge");
         ("demurragePerDay", parseFloatOf (prop vesselRow "Demurrage")
                             ||| parseFloatOf (prop vesselRow "Demurrage Rate")
                             ||| ofZ 5000);
         ("dispatchPerDay", parseFloatOf (prop vesselRow "Dispatch")
                            ||| parseFloatOf (prop vesselRow "Dispatch Rate")
                            ||| ofZ 2500);
         ("loadRatePerDay", parseFloatOf (prop vesselRow "Load Rate")
                            ||| parseFloatOf (prop vesselRow "Loading Rate")
                            ||| ofZ 10000);
         ("cargoQtyMt", parseFloatOf (prop vesselRow "Cargo Qty")
                        ||| parseFloatOf (prop vesselRow "Quantity")
                        ||| ofZ 47000);
         ("events", VArr (map toEvent (filter isEventRow csvData)));
         ("sourceFile", VStr "CSV Upload")]
  end.

(** The lines of the file that are not blank. *)
Definition nonBlankLines (text : string) : list string :=
  filter (fun line => negb (trim line =? EmptyString)) (split "010" text).

Definition processCsvFile (text : string) : csvOutcome :=
  try_catch
    (let lines := nonBlankLines text in
     headers <-
       match lines with
       | [] => Throw TypeError
       | header :: _ => Ok (map trim (split "," header))
       end ;;
     let data := map (parseRow headers) (tl lines) in
     let vesselData := extractVesselDataFromCsv data in
     if negb (truthy vesselData) then Ok CouldNotExtract
     else Ok (SetExtractedData vesselData))
    (fun _ => ErrorProcessingCsv).

(** *** The document path: the page state after an upload *)
Definition processDocxFile (EXTRACTOR_URL : option string)
    (fetch : string -> value -> result Api.response) (formData : value)
    (extractedData : value) : value :=
  try_catch (Api.extractEvents EXTRACTOR_URL fetch formData)
            (fun _ => extractedData).

(** *** Export *)

Definition exportRow (event : value) : result string :=
  name <- getProp event "name" ;;
  start <- getProp event "start" ;;
  end_ <- getProp event "end" ;;
  Ok (join "," [VStr (dquote ++ ToString name ++ dquote); start; end_]).

(** The text handed to the download, or nothing when the guard returns. *)
Definition exportToCSV (data : value) : result (option string) :=
  if negb (truthy data) || negb (truthy (get data "events")) then Ok None
  else
    match get data "events" with
    | VArr events =>
        rows <- mapM exportRow events ;;
        Ok (Some (String.concat newline
                    (join "," [VStr "Event Name"; VStr "Start Time"; VStr "End Time"]
                     :: rows)))
    | _ => Throw TypeError
    end.

(** *** Save *)

Definition newItem (clk : clock) (sanitizedData : value) : value :=
  let events := get sanitizedData "events" in
  VObj
    [("id", ofZ (Date_now clk));
     ("title", VStr (ToString (get sanitizedData "vessel") ++ " - "
                     ++ title_toLocaleDateString clk));
     ("date", VStr (hd EmptyString (split "T" (date_toISOString clk))));
     ("vessel", get sanitizedData "vessel");
     ("voyageFrom", get sanitizedData "voyageFrom" ||| VStr EmptyString);
     ("voyageTo", get sanitizedData "voyageTo" ||| VStr EmptyString);
     ("cargo", get sanitizedData "cargo" ||| VStr EmptyString);
     ("port", get sanitizedData "port");
     ("operation", get sanitizedData "operation" ||| VStr "Discharge");
     ("demurragePerDay", get sanitizedData "demurragePerDay" ||| ofZ 0);
     ("dispatchPerDay", get sanitizedData "dispatchPerDay" ||| ofZ 0);
     ("loadRatePerDay", get sanitizedData "loadRatePerDay" ||| ofZ 0);
     ("cargoQtyMt", get sanitizedData "cargoQtyMt" ||| ofZ 0);
     ("totalEvents", if truthy events then get events "length" else ofZ 0);
     ("status", VStr "saved");
     ("extractedData", sanitizedData);
     ("events", events ||| VArr []);
     ("createdAt", VStr (createdAt_toISOString clk));
     ("sourceFile", get sanitizedData "sourceFile" ||| VStr "Unknown")].

(** [savedCalculations.unshift(newItem)] *)
Definition unshift (savedCalculations x : value) : result value :=
  match savedCalculations with
  | VArr l => Ok (VArr (x :: l))
  | _ => Throw TypeError
  end.

(** [saveToLaytime data]: the notification shown and the storage entry
    afterwards. *)
Definition saveToLaytime (clk : clock) (data : value) (storage : item)
  : saveAlert * item :=
  if negb (truthy data) then (NoDataToSave, storage)
  else if negb (truthy (validateExtractedData data)) then (InvalidOrIncomplete, storage)
  else
    try_catch
      (sanitizedData <- sanitizeDataBeforeSave data ;;
       savedCalculations <- parseOrEmpty storage ;;
       savedCalculations' <- unshift savedCalculations (newItem clk sanitizedData) ;;
       Ok (SavedSuccessfully, setItem savedCalculations'))
      (fun _ => (ErrorSaving, storage)).

End WithHost.
End Dashboard.

(* ===================================================================== *)
(** ** pages/SavedEvents.jsx *)
(* ===================================================================== *)

Module SavedEvents.
Import JS.
Import DataCleanup.
Import Dashboard.
Section WithHost.
Context {host : Host}.

(** [loadSavedEvents]: the list handed to [setSavedEvents]. *)
Definition loadSavedEvents (storage : item) : list value :=
  try_catch
    (savedCalculations <- parseOrEmpty storage ;;
     match savedCalculations with
     | VArr l => Ok (filter (fun calc => truthy (validateExtractedData calc)) l)
     | _ => Throw TypeError
     end)
    (fun _ => []).

(** The export of a saved record has the text of the dashboard's. *)
Definition exportToCSV (data : value) : result (option string) :=
  if negb (truthy data) || negb (truthy (get data "events")) then Ok None
  else
    match get data "events" with
    | VArr events =>
        rows <- mapM exportRow events ;;
        Ok (Some (String.concat newline
                    (join "," [VStr "Event Name"; VStr "Start Time"; VStr "End Time"]
                     :: rows)))
    | _ => Throw TypeError
    end.

(** [v.toLowerCase()]: only a text has the method. *)
Definition lower (v : value) : result string :=
  match v with
  | VStr s => Ok (toLowerCase s)
  | _ => Throw TypeError
  end.

(** The callback of [filteredEvents]; [||] reads the vessel only when the
    title does not match, and the port only when neither does. *)
Definition matchesSearch (searchTerm : string) (event : value) : result bool :=
  title <- getProp event "title" ;;
  title' <- lower title ;;
  if includesStr (toLowerCase searchTerm) title' then Ok true
  else
    vessel <- getProp event "vessel" ;;
    vessel' <- lower vessel ;;
    if includesStr (toLowerCase searchTerm) vessel' then Ok true
    else
      port <- getProp event "port" ;;
      port' <- lower port ;;
      Ok (includesStr (toLowerCase searchTerm) port').

Definition filteredEvents (savedEvents : list value) (searchTerm : string)
  : result (list value) :=
  filterM (matchesSearch searchTerm) savedEvents.

(** [handleDelete id]: the list of the page and the storage entry
    afterwards; [confirmed] is the answer to the confirmation dialog. *)
Definition handleDelete (confirmed : bool) (savedEvents : list value)
    (storage : item) (id : number) : result (list value * item) :=
  if confirmed then
    updatedEvents <-
      filterM (fun event => eventId <- getProp event "id" ;;
                            Ok (negb (strictEqNum eventId id))) savedEvents ;;
    Ok (updatedEvents, setItem (VArr updatedEvents))
  else Ok (savedEvents, storage).

(** [handleSaveTitle id]: every record with that id gets the edited
    title. *)
Definition handleSaveTitle (savedEvents : list value) (editTitle : string)
    (id : number) : result (list value * item) :=
  updatedEvents <-
    mapM (fun event => eventId <- getProp event "id" ;;
                       Ok (if strictEqNum eventId id
                           then VObj (setProp "title" (VStr editTitle) (spread event))
                           else event)) savedEvents ;;
  Ok (updatedEvents, setItem (VArr updatedEvents)).

End WithHost.
End SavedEvents.

(* ===================================================================== *)
(** ** Concrete data for the runs below *)
(* ===================================================================== *)

Module Samples.
Import JS.

(** An engine that reads and prints whole numbers, enough to run the
    program on the concrete inputs of this file. *)
Definition readWhole (s : string) : number :=
  match s with
  | EmptyString => NaN
  | _ =>
      match NilEmpty.uint_of_string s with
      | Some u => Finite (inject_Z (Z.of_uint u))
      | None => NaN
      end
  end.

Definition printNumber (n : number) : string :=
  match n with
  | NaN => "NaN"
  | Infinity false => "Infinity"
  | Infinity true => "-Infinity"
  | Finite q => NilEmpty.string_of_int (Z.to_int (Qnum q / Zpos (Qden q)))
  end.

Definition wholeHost : Host := {|
  parseFloat := readWhole;
  StringToNumber := fun s => match s with
                             | EmptyString => Finite 0
                             | _ => readWhole s
                             end;
  NumberToString := printNumber
|}.

Definition clock0 : Dashboard.clock :=
  Dashboard.Clock 1700000000000 "11/14/2023" "2023-11-14T22:13:20.000Z"
    "2023-11-14T22:13:20.000Z".

(** The events and the properties of [namedResult]. *)
Definition namedEvents : list value :=
  [VObj [("name", VStr "Loading"); ("start_time", VStr "08:00");
         ("end_time", VStr "10:00")];
   VObj [("event", VStr "Shifting"); ("start_time", VStr "10:00");
         ("end_time", VStr "11:00")]].

Definition namedProps : object :=
  [("vessel", VStr "MV TEST"); ("cargo", VStr "Coal"); ("port", VStr "Rotterdam");
   ("events", VArr namedEvents)].

Definition clock1 : Dashboard.clock :=
  Dashboard.Clock 1700000060000 "11/14/2023" "2023-11-14T22:14:20.000Z"
    "2023-11-14T22:14:20.000Z".

(** The CSV of the scenario: one header line, one data line. *)
Definition scenarioCsv : string :=
  "Vessel,Event,Start Time,End Time" ++ newline ++ "MV TEST,Loading,08:00,10:00".

(** A CSV without a vessel column. *)
Definition noVesselCsv : string :=
  "Name,Event" ++ newline ++ "X,Loading".

(** A document result whose only event uses the legacy key [event], as
    the extraction service may send it. *)
Definition legacyResult : value :=
  VObj [("vessel", VStr "MV TEST"); ("cargo", VStr "Coal"); ("port", VStr "Rotterdam");
        ("events", VArr [VObj [("event", VStr "Loading");
                               ("start_time", VStr "08:00");
                               ("end_time", VStr "10:00")]])].

Definition namedResult : value :=
  VObj [("vessel", VStr "MV TEST"); ("cargo", VStr "Coal"); ("port", VStr "Rotterdam");
        ("events", VArr [VObj [("name", VStr "Loading");
                               ("start_time", VStr "08:00");
                               ("end_time", VStr "10:00")];
                         VObj [("event", VStr "Shifting");
                               ("start_time", VStr "10:00");
                               ("end_time", VStr "11:00")]])].

(** An event carrying the two keys the table reads. *)
Definition eventWithTimes (start end_ : string) : value :=
  VObj [("start_time", VStr start); ("end_time", VStr end_)].

(** A result whose [events] is an object with a length and no element. *)
Definition lengthOnlyResult : value :=
  VObj [("vessel", VStr "MV TEST"); ("events", VObj [("length", ofZ 1)])].

(** A result whose [events] is a text. *)
Definition textEventsResult : value :=
  VObj [("vessel", VStr "MV TEST"); ("events", VStr "abc")].

(** A result with an empty event list. *)
Definition emptyEventsResult : value :=
  VObj [("vessel", VStr "MV TEST"); ("port", VStr "Rotterdam"); ("events", VArr [])].

(** Two records as Load returns them. *)
Definition recordA : value :=
  VObj [("id", ofZ 1700000000000); ("title", VStr "MV TEST - 11/14/2023");
        ("vessel", VStr "MV TEST"); ("port", VStr "Rotterdam");
        ("events", VArr [VObj [("name", VStr "Loading"); ("start", VStr "08:00");
                               ("end", VStr "10:00")]])].

Definition recordB : value :=
  VObj [("id", ofZ 1700000000001); ("title", VStr "MV OTHER - 11/14/2023");
        ("vessel", VStr "MV OTHER"); ("port", VStr "Antwerp");
        ("events", VArr [VObj [("name", VStr "Discharging"); ("start", VStr "11:00");
                               ("end", VStr "12:00")]])].

End Samples.

(* ===================================================================== *)
(** ** The vocabulary of the specification *)
(* ===================================================================== *)

Module Spec.
Import JS.

(** The one failure of the extraction client: the service is unreachable
    or answers with an error, or no service is configured. *)
Definition ExtractionUnavailable (r : result value) : Prop :=
  r = Throw (Error "Extraction service unavailable") \/
  r = Throw (Error "No extraction service configured").

(** The rejection of the save gate: nothing to save, or a result that
    fails validation. *)
Definition ValidationFailed (a : Dashboard.saveAlert) : Prop :=
  a = Dashboard.InvalidOrIncomplete \/ a = Dashboard.NoDataToSave.

(** The header names under which a row may carry the vessel, in the order
    in which they are consulted. *)
Definition vesselSynonyms : list string :=
  ["Vessel"; "vessel"; "VESSEL"; "Vessel Name"; "vessel_name"].

(** A row matches when it holds a value under one of the synonyms. *)
Definition matchesVessel (row : object) : bool :=
  existsb (fun k => truthy (prop row k)) vesselSynonyms.

(** The keys of the current and of the legacy event schema. *)
Definition currentKeys : list string := ["name"; "start_time"; "end_time"].
Definition legacyKeys : list string := ["event"; "start"; "end"].

Definition exposes (e : value) (keys : list string) : bool :=
  match e with
  | VObj o => forallb (hasKey o) keys
  | _ => false
  end.

(** How often a character occurs in a text. *)
Fixpoint occurrences (c : ascii) (s : string) : nat :=
  match s with
  | EmptyString => 0
  | String c' s' => (if Ascii.eqb c' c then 1 else 0) + occurrences c s'
  end.

(** The text of a cell in a joined line. *)
Definition cellText {host : Host} (v : value) : string :=
  match v with
  | VUndef | VNull => EmptyString
  | _ => ToString v
  end.

(** An event with a name that holds a double quote: say "hi". *)
Definition quotedNameEvent : object :=
  [("name", VStr ("say " ++ dquote ++ "hi" ++ dquote));
   ("start", VStr "08:00"); ("end", VStr "10:00")].

Definition plainNameEvent : object :=
  [("name", VStr "Loading"); ("start", VStr "08:00"); ("end", VStr "10:00")].

(** An event of the CSV shape made of three texts, a text between double
    quotes, and a cell that holds neither a comma nor a line feed. *)
Definition eventOf (cells : string * string * string) : value :=
  let '(n, s, e) := cells in
  VObj [("name", VStr n); ("start", VStr s); ("end", VStr e)].

Definition quoted (s : string) : string := dquote ++ s ++ dquote.

Definition plainCell (s : string) : bool :=
  negb (includes "," s) && negb (includes "010" s).

(** The line the pages export for an event of three texts, the row the
    CSV path reads from that line, and the events for which the reading
    is exact: plain cells, times without surrounding blanks and not empty. *)
Definition exportedLine (cells : string * string * string) : string :=
  let '(n, s, e) := cells in (quoted n ++ "," ++ s ++ "," ++ e)%string.

Definition importedRow (cells : string * string * string) : object :=
  let '(n, s, e) := cells in
  [("Event Name", VStr (quoted n)); ("Start Time", VStr s); ("End Time", VStr e)].

Definition importable (cells : string * string * string) : Prop :=
  let '(n, s, e) := cells in
  plainCell n = true /\ plainCell s = true /\ plainCell e = true /\
  trim s = s /\ trim e = e /\ s <> EmptyString /\ e <> EmptyString.

(** A row all of whose cells are texts, as the CSV parser builds them. *)
Definition textRow (row : object) : Prop :=
  forall k v, lookup k row = Some v -> exists s, v = VStr s.

(** A value that is a text or undefined: what reading a text row gives. *)
Definition textOrUndefined (v : value) : Prop :=
  v = VUndef \/ exists s, v = VStr s.

End Spec.

(* ===================================================================== *)
(** ** Properties *)
(* ===================================================================== *)

Import JS.

(** *** Values and property lists *)

Lemma strictEqStr_true (v : value) (lit : string) :
  strictEqStr v lit = true <-> v = VStr lit.
Proof.
  destruct v; simpl; split; intros H; try discriminate.
  - apply String.eqb_eq in H. now subst.
  - injection H as ->. apply String.eqb_refl.
Qed.

Lemma truthy_or_else (a b : value) :
  truthy (a ||| b) = truthy a || truthy b.
Proof.
  unfold or_else. destruct (truthy a) eqn:Ha; simpl; auto.
Qed.

Lemma or_else_truthy_l (a b : value) :
  truthy a = true -> a ||| b = a.
Proof. intros H. unfold or_else. now rewrite H. Qed.

Lemma or_else_falsy_l (a b : value) :
  truthy a = false -> a ||| b = b.
Proof. intros H. unfold or_else. now rewrite H. Qed.

Lemma or_else_default_truthy (a b : value) :
  truthy b = true -> truthy (a ||| b) = true.
Proof.
  intros Hb. rewrite truthy_or_else, Hb. apply orb_true_r.
Qed.

Lemma truthy_and_then (a b : value) :
  truthy (and_then a b) = truthy a && truthy b.
Proof.
  unfold and_then. destruct (truthy a) eqn:Ha; simpl; auto.
Qed.

Lemma and_then_true (a b : value) :
  and_then a b = VBool true <->
  (truthy a = true /\ b = VBool true).
Proof.
  unfold and_then. destruct (truthy a) eqn:Ha; split.
  - auto.
  - intros [_ ?]; auto.
  - intros ->. discriminate.
  - intros [? _]. discriminate.
Qed.

Lemma falsy_property_falsy (v : value) (k : string) :
  truthy v = false -> truthy (get v k) = false.
Proof.
  destruct v; simpl; try reflexivity; try discriminate.
  intros H. apply negb_false_iff, String.eqb_eq in H. subst s.
  simpl. destruct (k =? "length"); reflexivity.
Qed.

Lemma lookup_setProp_same (k : string) (v : value) (o : object) :
  lookup k (setProp k v o) = Some v.
Proof.
  induction o as [|[k' v'] o IH]; simpl.
  - now rewrite String.eqb_refl.
  - destruct (k =? k') eqn:E; simpl.
    + now rewrite String.eqb_refl.
    + now rewrite E.
Qed.

Lemma lookup_setProp_other (k k' : string) (v : value) (o : object) :
  k' <> k -> lookup k' (setProp k v o) = lookup k' o.
Proof.
  intros Hne. induction o as [|[k0 v0] o IH]; simpl.
  - destruct (k' =? k) eqn:E; [apply String.eqb_eq in E; contradiction | reflexivity].
  - destruct (k =? k0) eqn:E; simpl.
    + apply String.eqb_eq in E. subst k0.
      destruct (k' =? k) eqn:E'; [apply String.eqb_eq in E'; contradiction | reflexivity].
    + destruct (k' =? k0); auto.
Qed.

Lemma prop_setProp_same (k : string) (v : value) (o : object) :
  prop (setProp k v o) k = v.
Proof. unfold prop. now rewrite lookup_setProp_same. Qed.

Lemma prop_setProp_other (k k' : string) (v : value) (o : object) :
  k' <> k -> prop (setProp k v o) k' = prop o k'.
Proof. intros H. unfold prop. now rewrite lookup_setProp_other. Qed.

Lemma keys_setProp_present (k : string) (v : value) (o : object) :
  lookup k o <> None -> map fst (setProp k v o) = map fst o.
Proof.
  induction o as [|[k' v'] o IH]; simpl; intros H.
  - contradiction.
  - destruct (k =? k') eqn:E; simpl.
    + apply String.eqb_eq in E. now subst.
    + now rewrite IH.
Qed.

Lemma hasKey_setProp_same (k : string) (v : value) (o : object) :
  hasKey (setProp k v o) k = true.
Proof. unfold hasKey. now rewrite lookup_setProp_same. Qed.

Lemma hasKey_setProp_other (k k' : string) (v : value) (o : object) :
  hasKey o k' = true -> hasKey (setProp k v o) k' = true.
Proof.
  unfold hasKey. destruct (String.eqb_spec k' k) as [->|Hne].
  - now rewrite lookup_setProp_same.
  - now rewrite lookup_setProp_other.
Qed.

(** A length is positive exactly when the list is not empty. *)
Lemma gtZero_ofNat {host : Host} (n : nat) :
  gtZero (ofNat n) = negb (n =? 0)%nat.
Proof.
  unfold gtZero, ofNat, ToNumber, Qle_bool. simpl.
  destruct n; simpl; reflexivity.
Qed.

Lemma gtZero_length {host : Host} (l : list value) :
  gtZero (get (VArr l) "length") = true <-> l <> [].
Proof.
  simpl. rewrite gtZero_ofNat. destruct l; simpl; split; intros H;
    try discriminate; try reflexivity; congruence.
Qed.

(** *** The missing-time flag of the event table *)

Import EventTable DataCleanup Samples.

Lemma isMissingTime_object (o : object) :
  isMissingTime (VObj o) =
  Ok (negb (truthy (prop o "start_time")) || negb (truthy (prop o "end_time"))
      || strictEqStr (prop o "start_time") "--:--"
      || strictEqStr (prop o "end_time") "--:--"
      || strictEqStr (prop o "start_time") "00:00"
         && strictEqStr (prop o "end_time") "00:00").
Proof. reflexivity. Qed.

(** C3. On an event object, with [start] and [end] the two times the
    table reads, the missing-time flag is computed and is true exactly
    when start is falsy, or end is falsy, or start is the text --:--, or
    end is --:--, or both start and end are 00:00 (the conjunction is one
    branch of the disjunction).  So (00:00, 17:00) is not flagged, while
    (empty, --:--) and (00:00, 00:00) are. *)
Theorem isMissingTime_spec :
  (forall o : object,
     let start := prop o "start_time" in
     let end_ := prop o "end_time" in
     exists flag,
       isMissingTime (VObj o) = Ok flag /\
       (flag = true <->
        truthy start = false \/ truthy end_ = false \/
        start = VStr "--:--" \/ end_ = VStr "--:--" \/
        (start = VStr "00:00" /\ end_ = VStr "00:00")))
  /\ isMissingTime (eventWithTimes "00:00" "17:00") = Ok false
  /\ isMissingTime (eventWithTimes EmptyString "--:--") = Ok true
  /\ isMissingTime (eventWithTimes "00:00" "00:00") = Ok true.
Proof.
  split; [| repeat split; reflexivity].
  intros o start end_. eexists. split; [apply isMissingTime_object |].
  fold start end_.
  rewrite !orb_true_iff, andb_true_iff, !negb_true_iff, !strictEqStr_true.
  tauto.
Qed.

(** *** The validation gate *)

Section Gate.
Context {host : Host}.

Lemma validate_true_iff (data : value) :
  validateExtractedData data = VBool true <->
  truthy data = true /\ truthy (get data "vessel") = true /\
  truthy (get data "events") = true /\
  gtZero (get (get data "events") "length") = true.
Proof.
  unfold validateExtractedData. rewrite !and_then_true.
  split.
  - intros (Hd & Hv & He & H). repeat split; auto. congruence.
  - intros (Hd & Hv & He & ->). auto.
Qed.

Lemma validate_truthy_iff (data : value) :
  truthy (validateExtractedData data) = true <->
  validateExtractedData data = VBool true.
Proof.
  split.
  - unfold validateExtractedData. rewrite !truthy_and_then, !andb_true_iff.
    intros (Hd & Hv & He & Hl). unfold and_then. rewrite Hd, Hv, He.
    simpl in Hl. now rewrite Hl.
  - intros ->. reflexivity.
Qed.

(** A value that passes the gate is an object. *)
Lemma valid_is_object (data : value) :
  truthy (validateExtractedData data) = true -> exists o, data = VObj o.
Proof.
  rewrite validate_truthy_iff, validate_true_iff. intros (_ & Hv & _).
  destruct data; simpl in Hv; try discriminate. eauto.
Qed.

(** C4 (amended).  The gate answers true exactly when the result is
    truthy, its vessel is truthy, its events value is truthy and the
    length of that value is greater than zero; every other answer is
    falsy.  For an events array this means a non-empty sequence, and the
    gate rejects whenever the vessel is falsy or the events array is
    empty. *)
Theorem validateExtractedData_spec (data : value) :
  (validateExtractedData data = VBool true <->
   truthy data = true /\ truthy (get data "vessel") = true /\
   truthy (get data "events") = true /\
   gtZero (get (get data "events") "length") = true)
  /\ (truthy (validateExtractedData data) = true <->
      validateExtractedData data = VBool true)
  /\ (forall l, get data "events" = VArr l ->
      (validateExtractedData data = VBool true <->
       truthy data = true /\ truthy (get data "vessel") = true /\ l <> []))
  /\ (truthy (get data "vessel") = false ->
      truthy (validateExtractedData data) = false)
  /\ (get data "events" = VArr [] ->
      truthy (validateExtractedData data) = false).
Proof.
  split; [apply validate_true_iff |].
  split; [apply validate_truthy_iff |].
  split; [| split].
  - intros l Hl. rewrite validate_true_iff, Hl, gtZero_length. simpl. tauto.
  - intros Hv. apply not_true_is_false. rewrite validate_truthy_iff, validate_true_iff.
    intros (_ & Hv' & _). congruence.
  - intros He. apply not_true_is_false. rewrite validate_truthy_iff, validate_true_iff, He.
    intros (_ & _ & _ & Hl). discriminate.
Qed.

(** *** Sanitizing *)

Lemma keepEvent_name (event : value) :
  keepEvent event = truthy (get event "name").
Proof.
  unfold keepEvent. rewrite truthy_and_then.
  destruct (truthy event) eqn:He; simpl; [reflexivity |].
  symmetry. now apply falsy_property_falsy.
Qed.

Lemma filter_keepEvent (evs : list value) :
  filter keepEvent evs = filter (fun e => truthy (get e "name")) evs.
Proof. apply filter_ext. intros e. apply keepEvent_name. Qed.

Lemma sanitize_object (o : object) (evs : list value) :
  prop o "events" = VArr evs ->
  sanitizeDataBeforeSave (VObj o) =
  Ok (VObj (setProp "events" (VArr (filter keepEvent evs)) o)).
Proof.
  intros H. unfold sanitizeDataBeforeSave. simpl. rewrite H. reflexivity.
Qed.

(** C5.  On a result object whose [events] is a sequence, sanitizing
    returns an object whose [events] holds exactly the input events with a
    truthy name, in their order; every other key has the value it had,
    and the keys are those of the input, in the same order. *)
Theorem sanitizeDataBeforeSave_spec (o : object) (evs : list value)
    (Hevents : prop o "events" = VArr evs) :
  exists o',
    sanitizeDataBeforeSave (VObj o) = Ok (VObj o') /\
    prop o' "events" = VArr (filter (fun e => truthy (get e "name")) evs) /\
    (forall k, k <> "events" -> lookup k o' = lookup k o) /\
    map fst o' = map fst o.
Proof.
  eexists. split; [apply (sanitize_object o evs Hevents) |].
  split; [| split].
  - now rewrite prop_setProp_same, filter_keepEvent.
  - intros k Hk. now apply lookup_setProp_other.
  - apply keys_setProp_present. unfold prop in Hevents.
    destruct (lookup "events" o); [discriminate | discriminate].
Qed.

End Gate.

(** C4 as stated fails: an events value that is no sequence passes the
    gate when it has a positive length. *)
Lemma validateExtractedData_not_only_sequences :
  @validateExtractedData wholeHost lengthOnlyResult = VBool true
  /\ (forall l, get lengthOnlyResult "events" <> VArr l)
  /\ @validateExtractedData wholeHost textEventsResult = VBool true
  /\ (forall l, get textEventsResult "events" <> VArr l).
Proof. repeat split; try reflexivity; intros l H; discriminate H. Qed.

Lemma sanitizeDataBeforeSave_spec_witness :
  exists o',
    sanitizeDataBeforeSave namedResult = Ok (VObj o') /\
    prop o' "events" =
      VArr [VObj [("name", VStr "Loading"); ("start_time", VStr "08:00");
                  ("end_time", VStr "10:00")]] /\
    prop o' "vessel" = VStr "MV TEST".
Proof.
  destruct (sanitizeDataBeforeSave_spec
              [("vessel", VStr "MV TEST"); ("cargo", VStr "Coal");
               ("port", VStr "Rotterdam");
               ("events", VArr [VObj [("name", VStr "Loading");
                                      ("start_time", VStr "08:00");
                                      ("end_time", VStr "10:00")];
                                VObj [("event", VStr "Shifting");
                                      ("start_time", VStr "10:00");
                                      ("end_time", VStr "11:00")]])]
              _ eq_refl) as (o' & Hs & He & Hk & _).
  exists o'. split; [exact Hs |]. split; [exact He |].
  unfold prop. rewrite (Hk "vessel"); [reflexivity | discriminate].
Defined.

Lemma validateExtractedData_spec_witness :
  truthy (@validateExtractedData wholeHost emptyEventsResult) = false.
Proof.
  apply (proj2 (proj2 (proj2 (proj2
           (@validateExtractedData_spec wholeHost emptyEventsResult))))).
  reflexivity.
Defined.

(** *** The extraction client *)

Import Api Spec.

Lemma extractEvents_unconfigured (fetch : string -> value -> result response)
    (formData : value) :
  extractEvents None fetch formData = Throw (Error "No extraction service configured")
  /\ extractEvents (Some EmptyString) fetch formData
     = Throw (Error "No extraction service configured").
Proof. split; reflexivity. Qed.

Lemma extractEvents_success (url : string)
    (fetch : string -> value -> result response) (formData : value)
    (payload : object) :
  url <> EmptyString ->
  fetch (stripTrailingSlash url ++ "/extract")%string formData
    = Ok (Response true (Ok (VObj payload))) ->
  extractEvents (Some url) fetch formData =
  Ok (VObj [("vessel", prop payload "vessel" ||| VStr "Unknown Vessel");
            ("cargo", prop payload "cargo" ||| VStr EmptyString);
            ("port", prop payload "port" ||| VStr EmptyString);
            ("events", match prop payload "events" with
                       | VArr l => VArr l
                       | _ => VArr []
                       end)]).
Proof.
  intros Hurl Hfetch. unfold extractEvents.
  apply String.eqb_neq in Hurl. rewrite Hurl. simpl.
  rewrite Hfetch. simpl. destruct (prop payload "events"); reflexivity.
Qed.

(** Whatever the configuration and the network do, a failure of the
    client is one of the two errors. *)
Lemma extractEvents_failure (cfg : option string)
    (fetch : string -> value -> result response) (formData : value) (e : exn) :
  extractEvents cfg fetch formData = Throw e ->
  ExtractionUnavailable (extractEvents cfg fetch formData).
Proof.
  unfold extractEvents, ExtractionUnavailable.
  destruct cfg as [url|]; [| auto].
  destruct (negb (url =? EmptyString)); [| auto].
  destruct (fetch _ formData) as [[ok body]|]; simpl; [| auto].
  destruct ok; simpl; [| auto].
  destruct body as [data|]; simpl; [| auto].
  destruct data; simpl; auto; discriminate.
Qed.

(** C7.  When the service answers with success and a payload object, the
    client returns the four fields vessel, cargo, port, events: a vessel
    that the payload omits is Unknown Vessel, an omitted cargo or port is
    the empty text, events that are omitted or not an array are the empty
    sequence, and an events array is handed on.  A transport error, a
    non-success status and a missing configuration each end in the single
    failure, without a result; no other failure exists. *)
Theorem extractEvents_contract
    (fetch : string -> value -> result response) (formData : value) :
  (forall (url : string) (payload : object),
     url <> EmptyString ->
     fetch (stripTrailingSlash url ++ "/extract")%string formData
       = Ok (Response true (Ok (VObj payload))) ->
     exists r,
       extractEvents (Some url) fetch formData = Ok (VObj r) /\
       map fst r = ["vessel"; "cargo"; "port"; "events"] /\
       (lookup "vessel" payload = None -> prop r "vessel" = VStr "Unknown Vessel") /\
       (lookup "cargo" payload = None -> prop r "cargo" = VStr EmptyString) /\
       (lookup "port" payload = None -> prop r "port" = VStr EmptyString) /\
       (lookup "events" payload = None -> prop r "events" = VArr []) /\
       ((forall l, prop payload "events" <> VArr l) -> prop r "events" = VArr []) /\
       (forall l, prop payload "events" = VArr l -> prop r "events" = VArr l))
  /\ (forall (url : string) (e : exn),
        fetch (stripTrailingSlash url ++ "/extract")%string formData = Throw e ->
        ExtractionUnavailable (extractEvents (Some url) fetch formData))
  /\ (forall (url : string) (body : result value),
        fetch (stripTrailingSlash url ++ "/extract")%string formData
          = Ok (Response false body) ->
        ExtractionUnavailable (extractEvents (Some url) fetch formData))
  /\ ExtractionUnavailable (extractEvents None fetch formData)
  /\ ExtractionUnavailable (extractEvents (Some EmptyString) fetch formData)
  /\ (forall (cfg : option string) (e : exn),
        extractEvents cfg fetch formData = Throw e ->
        ExtractionUnavailable (extractEvents cfg fetch formData)).
Proof.
  split; [| split; [| split; [| split; [| split]]]].
  - intros url payload Hurl Hfetch. eexists.
    split; [apply (extractEvents_success url fetch formData payload Hurl Hfetch) |].
    split; [reflexivity |].
    unfold prop at 1 3 5 7 9 11. simpl.
    repeat split.
    + intros H. unfold prop. now rewrite H.
    + intros H. unfold prop. now rewrite H.
    + intros H. unfold prop. now rewrite H.
    + intros H. unfold prop. now rewrite H.
    + intros H. destruct (prop payload "events"); try reflexivity.
      exfalso. now apply (H elems).
    + intros l H. now rewrite H.
  - intros url e H. unfold extractEvents, ExtractionUnavailable.
    destruct (negb (url =? EmptyString)); [| auto]. rewrite H. simpl. auto.
  - intros url body H. unfold extractEvents, ExtractionUnavailable.
    destruct (negb (url =? EmptyString)); [| auto]. rewrite H. simpl. auto.
  - right. reflexivity.
  - right. reflexivity.
  - intros cfg e. apply extractEvents_failure.
Qed.

Lemma extractEvents_contract_witness :
  exists r,
    extractEvents (Some "http://localhost:8000/")
      (fun _ _ => Ok (Response true (Ok (VObj [("cargo", VStr "Coal")])))) VNull
    = Ok (VObj r)
    /\ prop r "vessel" = VStr "Unknown Vessel"
    /\ prop r "events" = VArr [].
Proof.
  destruct (proj1 (extractEvents_contract
                     (fun _ _ => Ok (Response true (Ok (VObj [("cargo", VStr "Coal")]))))
                     VNull)
              "http://localhost:8000/" [("cargo", VStr "Coal")])
    as (r & Hr & _ & Hvessel & _ & _ & Hevents & _).
  - discriminate.
  - reflexivity.
  - exists r. split; [exact Hr |]. split; [apply Hvessel | apply Hevents]; reflexivity.
Defined.

(** *** The CSV path *)

Import Dashboard.

Section CsvPath.
Context {host : Host}.

(** The page state set by a CSV upload is the extraction of the parsed
    rows. *)
Lemma processCsvFile_extracted (text : string) (vesselData : value) :
  processCsvFile text = SetExtractedData vesselData ->
  exists header rest,
    nonBlankLines text = header :: rest /\
    vesselData =
      extractVesselDataFromCsv
        (map (parseRow (map trim (split "," header))) rest).
Proof.
  unfold processCsvFile. destruct (nonBlankLines text) as [|header rest]; simpl.
  - discriminate.
  - destruct (truthy (extractVesselDataFromCsv _)); simpl; [| discriminate].
    intros H. injection H as <-. eauto.
Qed.

Lemma extracted_events (csvData : list object) (evs : list value) :
  get (extractVesselDataFromCsv csvData) "events" = VArr evs ->
  evs = map toEvent (filter isEventRow csvData).
Proof.
  destruct csvData as [|first rest]; [discriminate |].
  unfold extractVesselDataFromCsv, get, prop. simpl lookup.
  intros H. now injection H.
Qed.

Lemma toEvent_flagged (row : object) :
  isMissingTime (toEvent row) = Ok true.
Proof. reflexivity. Qed.

(** C10.  Every event that a CSV upload puts on the page carries the
    keys name, start and end and no other, so the table, which reads
    start_time and end_time, flags it as missing its times whatever the
    start and end of the row are. *)
Theorem csv_events_flagged_missing (text : string) (vesselData : value)
    (evs : list value)
    (Hupload : processCsvFile text = SetExtractedData vesselData)
    (Hevents : get vesselData "events" = VArr evs) :
  Forall (fun e => (exists o, e = VObj o /\ map fst o = ["name"; "start"; "end"])
                   /\ isMissingTime e = Ok true) evs.
Proof.
  destruct (processCsvFile_extracted text vesselData Hupload)
    as (header & rest & _ & ->).
  rewrite (extracted_events _ evs Hevents).
  apply Forall_forall. intros e He. apply in_map_iff in He.
  destruct He as (row & <- & _). split.
  - eexists. split; reflexivity.
  - apply toEvent_flagged.
Qed.

End CsvPath.

Lemma csv_events_flagged_missing_witness :
  Forall (fun e => (exists o, e = VObj o /\ map fst o = ["name"; "start"; "end"])
                   /\ isMissingTime e = Ok true)
    [VObj [("name", VStr "Loading"); ("start", VStr "08:00"); ("end", VStr "10:00")]].
Proof.
  apply (@csv_events_flagged_missing wholeHost scenarioCsv
           (VObj
              [("vessel", VStr "MV TEST"); ("voyageFrom", VStr "Unknown");
               ("voyageTo", VStr "Unknown"); ("cargo", VStr "Unknown Cargo");
               ("port", VStr "Unknown Port"); ("operation", VStr "Discharge");
               ("demurragePerDay", ofZ 5000); ("dispatchPerDay", ofZ 2500);
               ("loadRatePerDay", ofZ 10000); ("cargoQtyMt", ofZ 47000);
               ("events",
                VArr [VObj [("name", VStr "Loading"); ("start", VStr "08:00");
                            ("end", VStr "10:00")]]);
               ("sourceFile", VStr "CSV Upload")])).
  - vm_compute. reflexivity.
  - reflexivity.
Defined.

(** *** The save gate *)

Section SaveGate.
Context {host : Host}.

(** C8.  A result that fails validation is rejected by Save with the
    validation notice (a missing result with the no-data notice) and the
    stored sequence is left as it was. *)
Theorem save_rejects_invalid (clk : clock) (data : value) (storage : item)
    (Hinvalid : truthy (validateExtractedData data) = false) :
  ValidationFailed (fst (saveToLaytime clk data storage))
  /\ (truthy data = true ->
      fst (saveToLaytime clk data storage) = InvalidOrIncomplete)
  /\ snd (saveToLaytime clk data storage) = storage
  /\ SavedEvents.loadSavedEvents (snd (saveToLaytime clk data storage))
     = SavedEvents.loadSavedEvents storage.
Proof.
  unfold saveToLaytime, ValidationFailed.
  destruct (truthy data) eqn:Hd; simpl.
  - rewrite Hinvalid. simpl. auto.
  - repeat split; auto. discriminate.
Qed.

End SaveGate.

Lemma save_rejects_invalid_witness :
  @saveToLaytime wholeHost clock0 emptyEventsResult
    (Document (VArr [namedResult]))
  = (InvalidOrIncomplete, Document (VArr [namedResult])).
Proof.
  destruct (@save_rejects_invalid wholeHost clock0 emptyEventsResult
              (Document (VArr [namedResult])) eq_refl)
    as (_ & Halert & Hstore & _).
  rewrite (surjective_pairing (saveToLaytime _ _ _)).
  rewrite Hstore, (Halert eq_refl). reflexivity.
Defined.

(** *** The two CSV serializers *)

Lemma string_length_app (a b : string) :
  String.length (a ++ b) = String.length a + String.length b.
Proof. induction a as [|c a IH]; simpl; [| rewrite IH]; reflexivity. Qed.

Lemma string_app_assoc (a b c : string) :
  ((a ++ b) ++ c = a ++ b ++ c)%string.
Proof. induction a as [|x a IH]; simpl; [| rewrite IH]; reflexivity. Qed.

Lemma occurrences_le_length (c : ascii) (s : string) :
  occurrences c s <= String.length s.
Proof.
  induction s as [|c' s IH]; simpl; [lia |].
  destruct (Ascii.eqb c' c); simpl; lia.
Qed.

Lemma replaceAll_length (c : ascii) (by_ s : string) :
  String.length (replaceAll c by_ s) + occurrences c s
  = String.length s + occurrences c s * String.length by_.
Proof.
  induction s as [|c' s IH]; simpl; [reflexivity |].
  destruct (Ascii.eqb c' c); simpl.
  - rewrite string_length_app. lia.
  - lia.
Qed.

Lemma occurrences_app (c : ascii) (a b : string) :
  occurrences c (a ++ b) = occurrences c a + occurrences c b.
Proof. induction a as [|c' a IH]; simpl; [| rewrite IH; lia]; reflexivity. Qed.

Lemma occurrences_replaceAll (c : ascii) (by_ s : string) :
  occurrences c (replaceAll c by_ s) = occurrences c s * occurrences c by_.
Proof.
  induction s as [|c' s IH]; cbn [replaceAll occurrences]; [reflexivity |].
  destruct (Ascii.eqb c' c) eqn:E.
  - rewrite occurrences_app, IH. lia.
  - cbn [occurrences]. rewrite E, IH. lia.
Qed.

Lemma occurrences_replaceAll_quote (s : string) :
  occurrences "034" (replaceAll "034" (dquote ++ dquote) s)
  = 2 * occurrences "034" s.
Proof. rewrite occurrences_replaceAll. simpl. lia. Qed.

Lemma escapeField_quoted_longer (s : string) :
  String.length (dquote ++ replaceAll "034" (dquote ++ dquote) s ++ dquote)
  = String.length s + occurrences "034" s + 2.
Proof.
  rewrite !string_length_app.
  pose proof (replaceAll_length "034" (dquote ++ dquote) s) as H.
  simpl in *. lia.
Qed.

Section Serializers.
Context {host : Host}.

Lemma exportRow_object (o : object) :
  exportRow (VObj o) =
  Ok (dquote ++ ToString (prop o "name") ++ dquote ++ ","
      ++ cellText (prop o "start") ++ "," ++ cellText (prop o "end"))%string.
Proof.
  unfold exportRow, join, cellText. cbn [getProp get bind map String.concat].
  rewrite <- !string_app_assoc. reflexivity.
Qed.

(** C9.  The two serializers disagree.  [convertToCSV] changes a field
    exactly when it is a text holding a comma or a double quote, and then
    wraps it in quotes with every embedded quote doubled; the export of
    the pages wraps the name in quotes whatever it holds and leaves its
    quotes as they are.  On an event named say "hi" the data lines differ,
    and so do the outputs on a plainly named event. *)
Theorem csv_serializers_differ :
  (forall v : value,
     escapeField v <> v <->
     exists s, v = VStr s /\ (includes "," s = true \/ includes "034" s = true))
  /\ (forall s : string,
        includes "," s = true \/ includes "034" s = true ->
        exists body,
          escapeField (VStr s) = VStr (dquote ++ body ++ dquote) /\
          body = replaceAll "034" (dquote ++ dquote) s /\
          occurrences "034" body = 2 * occurrences "034" s)
  /\ (forall o : object,
        exportRow (VObj o) =
        Ok (dquote ++ ToString (prop o "name") ++ dquote ++ ","
            ++ cellText (prop o "start") ++ "," ++ cellText (prop o "end"))%string)
  /\ convertToCSV [quotedNameEvent]
     = ("name,start,end" ++ newline
        ++ dquote ++ "say " ++ dquote ++ dquote ++ "hi" ++ dquote ++ dquote ++ dquote
        ++ ",08:00,10:00")%string
  /\ exportToCSV (VObj [("events", VArr [VObj quotedNameEvent])])
     = Ok (Some ("Event Name,Start Time,End Time" ++ newline
                 ++ dquote ++ "say " ++ dquote ++ "hi" ++ dquote ++ dquote
                 ++ ",08:00,10:00")%string)
  /\ (exists events : list object,
        exportToCSV (VObj [("events", VArr (map VObj events))])
        <> Ok (Some (convertToCSV events))
        /\ map exportRow (map VObj events)
           <> map (fun row => Ok (join "," (map (fun h => escapeField (prop row h))
                                               ["name"; "start"; "end"]))) events).
Proof.
  split; [| split; [| split; [| split; [| split]]]].
  - intros v. split.
    + destruct v; simpl; try congruence.
      destruct (includes "," s || includes "034" s) eqn:E; [| congruence].
      intros _. exists s. split; [reflexivity |]. now apply orb_true_iff.
    + intros (s & -> & H). apply orb_true_iff in H. unfold escapeField. rewrite H.
      intros Heq. injection Heq as Heq.
      apply (f_equal String.length) in Heq.
      change (String.length
                (dquote ++ replaceAll "034" (dquote ++ dquote) s ++ dquote)
              = String.length s) in Heq.
      rewrite escapeField_quoted_longer in Heq. lia.
  - intros s H. apply orb_true_iff in H. eexists. unfold escapeField. rewrite H.
    split; [reflexivity |]. split; [reflexivity |].
    apply occurrences_replaceAll_quote.
  - apply exportRow_object.
  - reflexivity.
  - reflexivity.
  - exists [plainNameEvent]. split.
    + vm_compute. discriminate.
    + vm_compute. discriminate.
Qed.

End Serializers.

(** *** Vessel resolution of the CSV path *)

Lemma hasVessel_matches (row : object) :
  hasVessel row = matchesVessel row.
Proof.
  unfold hasVessel, matchesVessel, vesselSynonyms. simpl.
  rewrite !truthy_or_else, orb_false_r, !orb_assoc. reflexivity.
Qed.

Lemma find_same_test {A : Type} (f g : A -> bool) (l : list A) :
  (forall x, f x = g x) -> find f l = find g l.
Proof.
  intros H. induction l as [|x l IH]; simpl; [reflexivity |].
  rewrite H, IH. reflexivity.
Qed.

Lemma firstn_min_length {A : Type} (n : nat) (l : list A) :
  firstn (Nat.min n (List.length l)) l = firstn n l.
Proof.
  destruct (Nat.le_ge_cases n (List.length l)) as [H|H].
  - now rewrite Nat.min_l.
  - rewrite Nat.min_r by exact H. now rewrite firstn_all, firstn_all2.
Qed.

(** The scan that starts at row [i] and runs for [steps] rows returns the
    first row with a vessel among those rows. *)
Lemma vesselLoop_find (csvData : list object) (steps i : nat) :
  i + steps <= List.length csvData ->
  vesselLoop csvData i steps = find hasVessel (firstn steps (skipn i csvData)).
Proof.
  revert i. induction steps as [|steps IH]; intros i Hb; simpl; [reflexivity |].
  assert (Hi : i < List.length csvData) by lia.
  destruct (nth_error csvData i) as [row|] eqn:Hrow.
  - assert (Hskip : skipn i csvData = row :: skipn (S i) csvData).
    { clear - Hrow. revert i Hrow.
      induction csvData as [|x l IHl]; intros [|i] H; simpl in *; try discriminate.
      - now injection H as ->.
      - now apply IHl. }
    rewrite Hskip. simpl. destruct (hasVessel row); [reflexivity |].
    apply IH. lia.
  - apply nth_error_None in Hrow. lia.
Qed.

Lemma vesselLoop_first_five (csvData : list object) :
  vesselLoop csvData 0 (Nat.min 5 (List.length csvData))
  = find matchesVessel (firstn 5 csvData).
Proof.
  rewrite vesselLoop_find by (rewrite Nat.add_0_l; apply Nat.le_min_r).
  rewrite firstn_min_length. simpl skipn.
  apply find_same_test. intros row. apply hasVessel_matches.
Qed.

(** The vessel of a row that matches is the value of its first synonym
    that holds one; a row that does not match gives the default. *)
Lemma vesselField_match (row : object) :
  matchesVessel row = true ->
  find truthy (map (prop row) vesselSynonyms) = Some (vesselField row).
Proof.
  unfold matchesVessel, vesselField, vesselSynonyms. simpl.
  destruct (truthy (prop row "Vessel")) eqn:E1;
    [now rewrite !(or_else_truthy_l _ _ E1) | rewrite (or_else_falsy_l _ _ E1)].
  destruct (truthy (prop row "vessel")) eqn:E2;
    [now rewrite !(or_else_truthy_l _ _ E2) | rewrite (or_else_falsy_l _ _ E2)].
  destruct (truthy (prop row "VESSEL")) eqn:E3;
    [now rewrite !(or_else_truthy_l _ _ E3) | rewrite (or_else_falsy_l _ _ E3)].
  destruct (truthy (prop row "Vessel Name")) eqn:E4;
    [now rewrite !(or_else_truthy_l _ _ E4) | rewrite (or_else_falsy_l _ _ E4)].
  destruct (truthy (prop row "vessel_name")) eqn:E5;
    [now rewrite !(or_else_truthy_l _ _ E5) | discriminate].
Qed.

Lemma vesselField_no_match (row : object) :
  matchesVessel row = false -> vesselField row = VStr "Unknown Vessel".
Proof.
  unfold matchesVessel, vesselField, vesselSynonyms. simpl.
  rewrite !orb_false_iff. intros (E1 & E2 & E3 & E4 & E5 & _).
  now rewrite (or_else_falsy_l _ _ E1), (or_else_falsy_l _ _ E2),
    (or_else_falsy_l _ _ E3), (or_else_falsy_l _ _ E4), (or_else_falsy_l _ _ E5).
Qed.

Section VesselResolution.
Context {host : Host}.

Lemma extracted_vessel (first : object) (rest : list object) :
  exists r,
    extractVesselDataFromCsv (first :: rest) = VObj r /\
    prop r "vessel" =
      vesselField (match find matchesVessel (firstn 5 (first :: rest)) with
                   | Some row => row
                   | None => first
                   end).
Proof.
  unfold extractVesselDataFromCsv. rewrite vesselLoop_first_five.
  eexists. split; reflexivity.
Qed.

(** C6 (amended).  A CSV with a header line and at least one data line
    is extracted to a result object.  When one of the first five rows
    holds a value under a vessel synonym, the vessel is the value of the
    first such row under the first synonym it holds; when none does,
    row 0 is the vessel row and the vessel is the default name
    Unknown Vessel. *)
Theorem csv_vessel_resolution (text header line1 : string) (rest : list string)
    (Hlines : nonBlankLines text = header :: line1 :: rest) :
  let csvData := map (parseRow (map trim (split "," header))) (line1 :: rest) in
  exists r,
    processCsvFile text = SetExtractedData (VObj r) /\
    match find matchesVessel (firstn 5 csvData) with
    | Some row =>
        find truthy (map (prop row) vesselSynonyms) = Some (prop r "vessel")
    | None => prop r "vessel" = VStr "Unknown Vessel"
    end.
Proof.
  intros csvData. unfold processCsvFile. rewrite Hlines.
  cbn [bind tl try_catch]. fold csvData.
  destruct (extracted_vessel (parseRow (map trim (split "," header)) line1)
              (map (parseRow (map trim (split "," header))) rest))
    as (r & Hr & Hvessel).
  change (parseRow (map trim (split "," header)) line1
          :: map (parseRow (map trim (split "," header))) rest)
    with csvData in Hr, Hvessel.
  rewrite Hr. cbn [truthy negb]. exists r. split; [reflexivity |].
  rewrite Hvessel.
  destruct (find matchesVessel (firstn 5 csvData)) as [row|] eqn:Hfind.
  - apply find_some in Hfind. symmetry.
    rewrite vesselField_match; [reflexivity | apply Hfind].
  - apply vesselField_no_match.
    assert (Hall := find_none _ _ Hfind). apply Hall. simpl. auto.
Qed.

End VesselResolution.

Lemma csv_vessel_resolution_witness :
  exists r,
    @processCsvFile wholeHost scenarioCsv = SetExtractedData (VObj r) /\
    prop r "vessel" = VStr "MV TEST".
Proof.
  destruct (@csv_vessel_resolution wholeHost scenarioCsv
              "Vessel,Event,Start Time,End Time" "MV TEST,Loading,08:00,10:00" []
              eq_refl) as (r & Hr & Hv).
  exists r. split; [exact Hr |].
  vm_compute in Hv. now injection Hv.
Defined.

(** C6 as stated fails: with no vessel column the vessel of the result
    is not a value of row 0. *)
Lemma csv_vessel_not_from_row0 :
  exists r row0,
    @processCsvFile wholeHost noVesselCsv = SetExtractedData (VObj r) /\
    map (parseRow (map trim (split "," "Name,Event"))) ["X,Loading"] = [row0] /\
    find matchesVessel (firstn 5 [row0]) = None /\
    prop r "vessel" = VStr "Unknown Vessel" /\
    (forall k, prop row0 k <> prop r "vessel").
Proof.
  eexists. eexists.
  split; [vm_compute; reflexivity |].
  split; [vm_compute; reflexivity |].
  split; [reflexivity |]. split; [reflexivity |].
  intros k. unfold prop. simpl.
  destruct (k =? "Name"); [discriminate |].
  destruct (k =? "Event"); discriminate.
Qed.

(** *** The keys of the events on the page *)

Lemma arrayGet_repeat_undef (n j : nat) (v : value) :
  j <> n -> arrayGet (repeat VUndef n ++ [v]) j = VUndef.
Proof.
  unfold arrayGet. revert j. induction n as [|n IH]; intros [|j] H; simpl;
    try reflexivity; try congruence.
  - now destruct j.
  - apply IH. congruence.
Qed.

Lemma arrayGet_arraySet_same (l : list value) (i : nat) (v : value) :
  arrayGet (arraySet l i v) i = v.
Proof.
  unfold arrayGet. revert i. induction l as [|x l IH]; intros i.
  - simpl. induction i as [|i IHi]; simpl; auto.
  - destruct i as [|i]; simpl; auto.
Qed.

Lemma arrayGet_arraySet_other (l : list value) (i j : nat) (v : value) :
  j <> i -> arrayGet (arraySet l i v) j = arrayGet l j.
Proof.
  revert i j. induction l as [|x l IH]; intros i j H.
  - cbn [arraySet]. rewrite arrayGet_repeat_undef by exact H.
    unfold arrayGet. now destruct j.
  - destruct i as [|i], j as [|j]; simpl; try reflexivity; try congruence.
    unfold arrayGet in IH. apply IH. congruence.
Qed.

Lemma arraySet_length (l : list value) (i : nat) (v : value) :
  i < List.length l -> List.length (arraySet l i v) = List.length l.
Proof.
  revert i. induction l as [|x l IH]; intros i H; simpl in *; [lia |].
  destruct i as [|i]; simpl; [reflexivity |]. rewrite IH; [reflexivity | lia].
Qed.

Lemma handleEventUpdate_array (o u : object) (evs : list value) (index : nat) :
  prop o "events" = VArr evs ->
  handleEventUpdate (VObj o) index (VObj u) =
  Ok (VObj (setProp "events"
              (VArr (arraySet evs index
                       (VObj (replacedEvent (arrayGet evs index) (prop u "name")
                                (prop u "start_time") (prop u "end_time")))))
              o)).
Proof.
  intros H. unfold handleEventUpdate. simpl. rewrite H. reflexivity.
Qed.

Lemma replacedEvent_keys (old name start_time end_time : value) :
  forallb (hasKey (replacedEvent old name start_time end_time))
    ["name"; "start"; "end"; "start_time"; "end_time"] = true
  /\ (forall k, hasKey (spread old) k = true ->
                hasKey (replacedEvent old name start_time end_time) k = true).
Proof.
  unfold replacedEvent. split.
  - simpl. rewrite !andb_true_iff.
    repeat split;
      repeat first [ apply hasKey_setProp_same
                   | apply hasKey_setProp_other ].
  - intros k H. now repeat apply hasKey_setProp_other.
Qed.

Lemma replacedEvent_values (old name start_time end_time : value) :
  prop (replacedEvent old name start_time end_time) "name" = name
  /\ prop (replacedEvent old name start_time end_time) "start" = start_time
  /\ prop (replacedEvent old name start_time end_time) "start_time" = start_time
  /\ prop (replacedEvent old name start_time end_time) "end" = end_time
  /\ prop (replacedEvent old name start_time end_time) "end_time" = end_time.
Proof.
  unfold replacedEvent.
  repeat split;
    repeat first [ apply prop_setProp_same
                 | rewrite prop_setProp_other by discriminate ].
Qed.

Section EventKeys.
Context {host : Host}.

Lemma csv_event_keys (text : string) (vesselData : value) (evs : list value) :
  processCsvFile text = SetExtractedData vesselData ->
  get vesselData "events" = VArr evs ->
  Forall (fun e => exists o, e = VObj o /\ map fst o = ["name"; "start"; "end"]) evs.
Proof.
  intros Hupload Hevents.
  destruct (processCsvFile_extracted text vesselData Hupload)
    as (header & rest & _ & ->).
  rewrite (extracted_events _ evs Hevents).
  apply Forall_forall. intros e He. apply in_map_iff in He.
  destruct He as (row & <- & _). eexists. split; reflexivity.
Qed.

(** C2 (amended).  The events of the CSV path carry the keys name,
    start and end; the document path hands the events of the service on
    as they are; an event replaced through the edit of the page carries
    name, start, end, start_time and end_time besides the keys it had,
    with start equal to start_time and end equal to end_time, and the
    other events stay as they were.  The table shows name, or event when
    name is falsy. *)
Theorem event_keys_by_producer :
  (forall (text : string) (vesselData : value) (evs : list value),
     processCsvFile text = SetExtractedData vesselData ->
     get vesselData "events" = VArr evs ->
     Forall (fun e => exists o,
                 e = VObj o /\ map fst o = ["name"; "start"; "end"]) evs)
  /\ (forall (url : string) (fetch : string -> value -> result response)
        (formData previous : value) (payload : object) (evs : list value),
        url <> EmptyString ->
        fetch (stripTrailingSlash url ++ "/extract")%string formData
          = Ok (Response true (Ok (VObj payload))) ->
        prop payload "events" = VArr evs ->
        get (processDocxFile (Some url) fetch formData previous) "events" = VArr evs)
  /\ (forall (o u : object) (evs : list value) (index : nat),
        prop o "events" = VArr evs ->
        index < List.length evs ->
        exists o' evs' e',
          handleEventUpdate (VObj o) index (VObj u) = Ok (VObj o') /\
          prop o' "events" = VArr evs' /\
          List.length evs' = List.length evs /\
          arrayGet evs' index = VObj e' /\
          forallb (hasKey e') ["name"; "start"; "end"; "start_time"; "end_time"] = true /\
          (forall k, hasKey (spread (arrayGet evs index)) k = true -> hasKey e' k = true) /\
          prop e' "name" = prop u "name" /\
          prop e' "start" = prop u "start_time" /\
          prop e' "start_time" = prop u "start_time" /\
          prop e' "end" = prop u "end_time" /\
          prop e' "end_time" = prop u "end_time" /\
          (forall j, j <> index -> arrayGet evs' j = arrayGet evs j))
  /\ (forall e : object, nameCell (VObj e) = Ok (prop e "name" ||| prop e "event")).
Proof.
  split; [| split; [| split]].
  - apply csv_event_keys.
  - intros url fetch formData previous payload evs Hurl Hfetch Hevs.
    unfold processDocxFile.
    rewrite (extractEvents_success url fetch formData payload Hurl Hfetch).
    rewrite Hevs. reflexivity.
  - intros o u evs index Hevs Hindex.
    destruct (replacedEvent_keys (arrayGet evs index) (prop u "name")
                (prop u "start_time") (prop u "end_time")) as (Hkeys & Hold).
    destruct (replacedEvent_values (arrayGet evs index) (prop u "name")
                (prop u "start_time") (prop u "end_time"))
      as (Hn & Hs & Hst & He & Het).
    eexists. eexists. eexists.
    split; [apply (handleEventUpdate_array o u evs index Hevs) |].
    split; [apply prop_setProp_same |].
    split; [now apply arraySet_length |].
    split; [apply arrayGet_arraySet_same |].
    repeat split; auto.
    intros j Hj. now apply arrayGet_arraySet_other.
  - reflexivity.
Qed.

End EventKeys.

(** C2 as stated fails: the event of the scenario CSV reaches the page
    with neither the current nor the legacy keys complete. *)
Lemma csv_event_lacks_keys :
  exists vesselData e,
    @processCsvFile wholeHost scenarioCsv = SetExtractedData vesselData /\
    get vesselData "events" = VArr [e] /\
    exposes e currentKeys = false /\
    exposes e legacyKeys = false /\
    exposes e ["start_time"] = false /\
    exposes e ["event"] = false.
Proof.
  eexists. eexists. split; [vm_compute; reflexivity |].
  repeat split; reflexivity.
Qed.

Lemma event_keys_by_producer_witness :
  exists o' e',
    handleEventUpdate
      (VObj [("vessel", VStr "MV TEST");
             ("events", VArr [VObj plainNameEvent])]) 0
      (VObj [("name", VStr "Loading"); ("start_time", VStr "08:30");
             ("end_time", VStr "10:00")])
    = Ok (VObj o') /\
    prop o' "events" = VArr [VObj e'] /\
    exposes (VObj e') currentKeys = true /\
    prop e' "start" = VStr "08:30".
Proof.
  destruct (proj1 (proj2 (proj2 (@event_keys_by_producer wholeHost)))
              [("vessel", VStr "MV TEST"); ("events", VArr [VObj plainNameEvent])]
              [("name", VStr "Loading"); ("start_time", VStr "08:30");
               ("end_time", VStr "10:00")]
              [VObj plainNameEvent] 0 eq_refl (Nat.lt_0_succ 0))
    as (o' & evs' & e' & Hupd & Hevs & Hlen & Hget & Hkeys & _ & _ & Hstart & _).
  exists o', e'. split; [exact Hupd |].
  destruct evs' as [|x [|y evs']]; try discriminate Hlen.
  unfold arrayGet in Hget. simpl in Hget. subst x.
  split; [exact Hevs |]. split.
  - simpl in *. rewrite !andb_true_iff in *. tauto.
  - exact Hstart.
Defined.

(** *** Save, then load *)

Lemma jsonClone_object (o : object) : jsonClone (VObj o) = VObj (cloneProps o).
Proof. reflexivity. Qed.

Lemma jsonClone_array (l : list value) : jsonClone (VArr l) = VArr (map jsonClone l).
Proof. reflexivity. Qed.

Lemma cloneProps_cons (k : string) (v : value) (o : object) :
  cloneProps ((k, v) :: o) =
  match v with
  | VUndef => cloneProps o
  | _ => (k, jsonClone v) :: cloneProps o
  end.
Proof. destruct v; reflexivity. Qed.

Lemma lookup_absent (k : string) (o : object) :
  ~ In k (map fst o) -> lookup k o = None.
Proof.
  induction o as [|[k' v] o IH]; simpl; intros H; [reflexivity |].
  destruct (String.eqb_spec k k') as [->|Hne]; [tauto |].
  apply IH. tauto.
Qed.

Lemma lookup_present (k : string) (o : object) (v : value) :
  lookup k o = Some v -> In k (map fst o).
Proof.
  induction o as [|[k' v'] o IH]; simpl; [discriminate |].
  destruct (String.eqb_spec k k') as [->|Hne]; auto.
Qed.

(** Reading a key of the clone of an object with distinct keys: absent
    when the object holds undefined or nothing there, the clone of the
    value otherwise. *)
Lemma prop_cloneProps (k : string) (o : object) :
  NoDup (map fst o) ->
  prop (cloneProps o) k =
  match prop o k with
  | VUndef => VUndef
  | v => jsonClone v
  end.
Proof.
  unfold prop. induction o as [|[k' v] o IH]; intros Hnd; [reflexivity |].
  simpl in Hnd. inversion Hnd as [|? ? Hnotin Hnd']; subst.
  rewrite cloneProps_cons. simpl lookup at 2.
  destruct (String.eqb_spec k k') as [->|Hne].
  - destruct v; simpl; rewrite ?String.eqb_refl; try reflexivity.
    rewrite IH by exact Hnd'. now rewrite (lookup_absent k' o Hnotin).
  - destruct v; simpl;
      try (apply String.eqb_neq in Hne; rewrite Hne); now apply IH.
Qed.

Lemma jsonClone_ofNat (n : nat) : jsonClone (ofNat n) = ofNat n.
Proof. reflexivity. Qed.

Section SaveLoad.
Context {host : Host}.

Lemma newItem_keys_distinct (clk : clock) (sanitizedData : value) :
  exists fields,
    newItem clk sanitizedData = VObj fields /\ NoDup (map fst fields).
Proof.
  eexists. split; [reflexivity |]. simpl.
  repeat (constructor; [simpl; intuition discriminate |]). constructor.
Qed.

(** The fields of the record as it comes back from storage. *)
Lemma stored_record_fields (clk : clock) (o : object) (vessel port : string)
    (kept : list value) :
  prop o "vessel" = VStr vessel ->
  prop o "port" = VStr port ->
  prop o "events" = VArr kept ->
  let record := jsonClone (newItem clk (VObj o)) in
  get record "vessel" = VStr vessel
  /\ get record "port" = VStr port
  /\ get record "totalEvents" = ofNat (List.length kept)
  /\ get record "events" = VArr (map jsonClone kept)
  /\ get record "extractedData" = jsonClone (VObj o).
Proof.
  intros Hv Hp He record.
  destruct (newItem_keys_distinct clk (VObj o)) as (fields & Hfields & Hnd).
  assert (Fv : prop fields "vessel" = prop o "vessel")
    by (unfold newItem in Hfields; injection Hfields as <-; reflexivity).
  assert (Fp : prop fields "port" = prop o "port")
    by (unfold newItem in Hfields; injection Hfields as <-; reflexivity).
  assert (Ft : prop fields "totalEvents"
               = if truthy (prop o "events") then get (prop o "events") "length"
                 else ofZ 0)
    by (unfold newItem in Hfields; injection Hfields as <-; reflexivity).
  assert (Fe : prop fields "events" = prop o "events" ||| VArr [])
    by (unfold newItem in Hfields; injection Hfields as <-; reflexivity).
  assert (Fx : prop fields "extractedData" = VObj o)
    by (unfold newItem in Hfields; injection Hfields as <-; reflexivity).
  subst record. rewrite Hfields, jsonClone_object. cbn [get].
  rewrite !(prop_cloneProps _ fields Hnd), Fv, Fp, Ft, Fe, Fx, Hv, Hp, He.
  repeat split; reflexivity.
Qed.

Lemma valid_stored_record (record : value) (vessel : string) (kept : list value) :
  (exists o, record = VObj o) ->
  get record "vessel" = VStr vessel ->
  truthy (VStr vessel) = true ->
  get record "events" = VArr (map jsonClone kept) ->
  kept <> [] ->
  truthy (validateExtractedData record) = true.
Proof.
  intros (o & ->) Hv Htruthy He Hkept.
  apply validate_truthy_iff, validate_true_iff.
  rewrite Hv, He. repeat split; auto.
  apply gtZero_length. destruct kept; [congruence | discriminate].
Qed.

(** C1 (amended).  Let r be a result object with a textual vessel and
    port and an event sequence, which passes validation and has at least
    one event with a truthy name, and let the storage hold a sequence.
    Then Save succeeds and Load returns a sequence whose first record has
    the vessel and the port of r and, as totalEvents, the number of events
    of r with a truthy name; the record is built from the sanitized
    result, which is itself valid, and the earlier records follow. *)
Theorem save_then_load (clk : clock) (o : object) (vessel port : string)
    (evs old : list value) (storage : item)
    (Hvessel : prop o "vessel" = VStr vessel)
    (Hport : prop o "port" = VStr port)
    (Hevents : prop o "events" = VArr evs)
    (Hvalid : truthy (validateExtractedData (VObj o)) = true)
    (Hnamed : existsb (fun e => truthy (get e "name")) evs = true)
    (Hstorage : parseOrEmpty storage = Ok (VArr old)) :
  exists record rest sanitized,
    sanitizeDataBeforeSave (VObj o) = Ok sanitized /\
    truthy (validateExtractedData sanitized) = true /\
    fst (saveToLaytime clk (VObj o) storage) = SavedSuccessfully /\
    SavedEvents.loadSavedEvents (snd (saveToLaytime clk (VObj o) storage))
      = record :: rest /\
    record = jsonClone (newItem clk sanitized) /\
    get record "vessel" = VStr vessel /\
    get record "port" = VStr port /\
    get record "totalEvents"
      = ofNat (List.length (filter (fun e => truthy (get e "name")) evs)) /\
    get record "extractedData" = jsonClone sanitized /\
    rest = filter (fun calc => truthy (validateExtractedData calc))
             (map jsonClone old).
Proof.
  set (kept := filter keepEvent evs).
  set (o' := setProp "events" (VArr kept) o).
  assert (Hsan : sanitizeDataBeforeSave (VObj o) = Ok (VObj o'))
    by apply (sanitize_object o evs Hevents).
  assert (Hkept : kept <> []).
  { subst kept. rewrite filter_keepEvent. apply existsb_exists in Hnamed.
    destruct Hnamed as (e & Hin & He). intros Hnil.
    assert (Hin' : In e (filter (fun e => truthy (get e "name")) evs))
      by (apply filter_In; auto).
    rewrite Hnil in Hin'. exact Hin'. }
  assert (Hv' : prop o' "vessel" = VStr vessel)
    by (subst o'; rewrite prop_setProp_other by discriminate; exact Hvessel).
  assert (Hp' : prop o' "port" = VStr port)
    by (subst o'; rewrite prop_setProp_other by discriminate; exact Hport).
  assert (He' : prop o' "events" = VArr kept)
    by (subst o'; apply prop_setProp_same).
  assert (Htruthy : truthy (VStr vessel) = true).
  { apply validate_truthy_iff, validate_true_iff in Hvalid.
    destruct Hvalid as (_ & Hv & _). cbn [get] in Hv. now rewrite Hvessel in Hv. }
  destruct (stored_record_fields clk o' vessel port kept Hv' Hp' He')
    as (Rv & Rp & Rt & Re & Rx).
  assert (Hrec : truthy (validateExtractedData (jsonClone (newItem clk (VObj o')))) = true).
  { apply (valid_stored_record _ vessel kept); auto.
    destruct (newItem_keys_distinct clk (VObj o')) as (fields & -> & _).
    rewrite jsonClone_object. eauto. }
  exists (jsonClone (newItem clk (VObj o'))).
  exists (filter (fun calc => truthy (validateExtractedData calc)) (map jsonClone old)).
  exists (VObj o').
  split; [exact Hsan |].
  split.
  { apply validate_truthy_iff, validate_true_iff. cbn [get].
    rewrite Hv', He'. repeat split; auto. now apply gtZero_length. }
  assert (Hsave : saveToLaytime clk (VObj o) storage
                  = (SavedSuccessfully,
                     Document (VArr (jsonClone (newItem clk (VObj o'))
                                     :: map jsonClone old)))).
  { unfold saveToLaytime. cbn [truthy negb]. rewrite Hvalid. cbn [negb].
    rewrite Hsan, Hstorage. cbn [bind unshift try_catch]. unfold setItem.
    now rewrite jsonClone_array, map_cons. }
  rewrite Hsave. cbn [fst snd].
  split; [reflexivity |].
  split.
  { unfold SavedEvents.loadSavedEvents. cbn [parseOrEmpty bind try_catch filter].
    now rewrite Hrec. }
  split; [reflexivity |].
  split; [exact Rv |]. split; [exact Rp |].
  split; [subst kept; now rewrite Rt, filter_keepEvent |].
  split; [exact Rx | reflexivity].
Qed.

End SaveLoad.

Lemma save_then_load_witness :
  exists record rest,
    @SavedEvents.loadSavedEvents wholeHost
      (snd (@saveToLaytime wholeHost clock0 namedResult Absent))
      = record :: rest /\
    get record "vessel" = VStr "MV TEST" /\
    get record "port" = VStr "Rotterdam" /\
    get record "totalEvents" = ofNat 1.
Proof.
  destruct (@save_then_load wholeHost clock0
              [("vessel", VStr "MV TEST"); ("cargo", VStr "Coal");
               ("port", VStr "Rotterdam");
               ("events", VArr [VObj [("name", VStr "Loading");
                                      ("start_time", VStr "08:00");
                                      ("end_time", VStr "10:00")];
                                VObj [("event", VStr "Shifting");
                                      ("start_time", VStr "10:00");
                                      ("end_time", VStr "11:00")]])]
              "MV TEST" "Rotterdam" _ [] Absent
              eq_refl eq_refl eq_refl eq_refl eq_refl eq_refl)
    as (record & rest & sanitized & _ & _ & _ & Hload & _ & Hv & Hp & Ht & _).
  exists record, rest. repeat split; assumption.
Defined.

(** C1 as stated fails.  A valid result whose only event is named under
    the legacy key is saved with success and is absent from what Load
    returns; a valid result with two events of which one has a name comes
    back with totalEvents 1. *)
Lemma save_then_load_counterexample :
  truthy (@validateExtractedData wholeHost legacyResult) = true
  /\ fst (@saveToLaytime wholeHost clock0 legacyResult Absent) = SavedSuccessfully
  /\ @SavedEvents.loadSavedEvents wholeHost
       (snd (@saveToLaytime wholeHost clock0 legacyResult Absent)) = []
  /\ truthy (@validateExtractedData wholeHost namedResult) = true
  /\ (exists e1 e2, get namedResult "events" = VArr [e1; e2])
  /\ (exists record rest,
        @SavedEvents.loadSavedEvents wholeHost
          (snd (@saveToLaytime wholeHost clock0 namedResult Absent))
          = record :: rest
        /\ get record "totalEvents" = ofNat 1).
Proof.
  split; [reflexivity |]. split; [reflexivity |]. split; [reflexivity |].
  split; [reflexivity |]. split; [eexists; eexists; reflexivity |].
  eexists. eexists. split; [vm_compute; reflexivity | reflexivity].
Qed.

(* ===================================================================== *)
(** ** Further properties of the pages *)
(* ===================================================================== *)

(** *** Editing and deleting rows of the current result *)

Lemma removeAt_length (l : list value) (index : nat) :
  index < List.length l -> S (List.length (removeAt l index)) = List.length l.
Proof.
  revert index. induction l as [|x l IH]; intros index H; simpl in *; [lia |].
  destruct index as [|i]; simpl; [reflexivity |]. rewrite IH; [reflexivity | lia].
Qed.

Lemma removeAt_out_of_range (l : list value) (index : nat) :
  List.length l <= index -> removeAt l index = l.
Proof.
  revert index. induction l as [|x l IH]; intros index H; simpl in *; [reflexivity |].
  destruct index as [|i]; [lia |]. rewrite IH; [reflexivity | lia].
Qed.

Lemma removeAt_before (l : list value) (index j : nat) :
  j < index -> arrayGet (removeAt l index) j = arrayGet l j.
Proof.
  unfold arrayGet. revert index j.
  induction l as [|x l IH]; intros index j H; simpl; [reflexivity |].
  destruct index as [|i]; [lia |]. destruct j as [|j]; simpl; [reflexivity |].
  apply IH. lia.
Qed.

Lemma removeAt_from (l : list value) (index j : nat) :
  index <= j -> arrayGet (removeAt l index) j = arrayGet l (S j).
Proof.
  unfold arrayGet. revert index j.
  induction l as [|x l IH]; intros index j H; simpl.
  - now destruct j.
  - destruct index as [|i]; [reflexivity |].
    destruct j as [|j]; [lia |]. simpl. rewrite IH by lia. reflexivity.
Qed.

(** X1.  Deleting row [index] of a result with an event array keeps the
    rows before it, moves every later row one place down and shortens the
    array by one; an index past the end changes nothing; the other fields
    of the result are untouched. *)
Theorem handleEventDelete_shifts (o : object) (evs : list value) (index : nat)
    (Hevents : prop o "events" = VArr evs) :
  exists o' evs',
    handleEventDelete (VObj o) index = Ok (VObj o') /\
    prop o' "events" = VArr evs' /\
    (forall k, k <> "events" -> lookup k o' = lookup k o) /\
    (index < List.length evs -> S (List.length evs') = List.length evs) /\
    (List.length evs <= index -> evs' = evs) /\
    (forall j, j < index -> arrayGet evs' j = arrayGet evs j) /\
    (forall j, index <= j -> arrayGet evs' j = arrayGet evs (S j)).
Proof.
  exists (setProp "events" (VArr (removeAt evs index)) o), (removeAt evs index).
  split.
  { unfold handleEventDelete. simpl. rewrite Hevents. reflexivity. }
  split; [apply prop_setProp_same |].
  split; [intros k Hk; now apply lookup_setProp_other |].
  split; [apply removeAt_length |].
  split; [apply removeAt_out_of_range |].
  split; [intros j; apply removeAt_before | intros j; apply removeAt_from].
Qed.

Lemma handleEventDelete_shifts_witness :
  exists o',
    handleEventDelete namedResult 0 = Ok (VObj o') /\
    prop o' "events" =
      VArr [VObj [("event", VStr "Shifting"); ("start_time", VStr "10:00");
                  ("end_time", VStr "11:00")]] /\
    prop o' "vessel" = VStr "MV TEST".
Proof.
  destruct (handleEventDelete_shifts
              [("vessel", VStr "MV TEST"); ("cargo", VStr "Coal");
               ("port", VStr "Rotterdam");
               ("events", VArr [VObj [("name", VStr "Loading");
                                      ("start_time", VStr "08:00");
                                      ("end_time", VStr "10:00")];
                                VObj [("event", VStr "Shifting");
                                      ("start_time", VStr "10:00");
                                      ("end_time", VStr "11:00")]])]
              _ 0 eq_refl)
    as (o' & evs' & Hdel & Hevs & Hother & Hlen & _ & _ & Hfrom).
  exists o'. split; [exact Hdel |].
  specialize (Hlen (Nat.lt_0_succ 1)). specialize (Hfrom 0 (Nat.le_refl 0)).
  destruct evs' as [|x [|y evs']]; try discriminate Hlen.
  unfold arrayGet in Hfrom. simpl in Hfrom. subst x.
  split; [exact Hevs |].
  unfold prop. rewrite (Hother "vessel"); [reflexivity | discriminate].
Defined.

Lemma isMissingTime_times (a b : object) :
  prop a "start_time" = prop b "start_time" ->
  prop a "end_time" = prop b "end_time" ->
  isMissingTime (VObj a) = isMissingTime (VObj b).
Proof. intros Hs He. rewrite !isMissingTime_object, Hs, He. reflexivity. Qed.

(** X2.  After an edit is saved, the missing-time flag of the edited row
    is the flag of the edit buffer: whatever the row held before, the
    table now judges it by the two times that were entered. *)
Theorem edited_row_flag (o u : object) (evs : list value) (index : nat)
    (Hevents : prop o "events" = VArr evs) :
  exists o' evs',
    handleEventUpdate (VObj o) index (VObj u) = Ok (VObj o') /\
    prop o' "events" = VArr evs' /\
    isMissingTime (arrayGet evs' index) = isMissingTime (VObj u).
Proof.
  eexists. eexists.
  split; [apply (handleEventUpdate_array o u evs index Hevents) |].
  split; [apply prop_setProp_same |].
  rewrite arrayGet_arraySet_same.
  destruct (replacedEvent_values (arrayGet evs index) (prop u "name")
              (prop u "start_time") (prop u "end_time"))
    as (_ & _ & Hst & _ & Het).
  now apply isMissingTime_times.
Qed.

Lemma edited_row_flag_witness :
  exists o' evs',
    handleEventUpdate
      (VObj [("vessel", VStr "MV TEST"); ("events", VArr [VObj plainNameEvent])]) 0
      (VObj [("name", VStr "Loading"); ("start_time", VStr "08:30");
             ("end_time", VStr "10:00")])
    = Ok (VObj o') /\
    prop o' "events" = VArr evs' /\
    isMissingTime (arrayGet evs' 0) = Ok false.
Proof.
  destruct (edited_row_flag
              [("vessel", VStr "MV TEST"); ("events", VArr [VObj plainNameEvent])]
              [("name", VStr "Loading"); ("start_time", VStr "08:30");
               ("end_time", VStr "10:00")]
              [VObj plainNameEvent] 0 eq_refl)
    as (o' & evs' & Hupd & Hevs & Hflag).
  exists o', evs'. split; [exact Hupd |]. split; [exact Hevs |].
  rewrite Hflag. reflexivity.
Defined.

(** X3.  Opening the edit of a row that has no start_time and no
    end_time (every row of the CSV path) and saving the buffer as it was
    opened keeps the name and replaces the start and the end of the row
    by undefined. *)
Theorem unchanged_edit_erases_times (o e : object) (evs : list value) (index : nat)
    (Hevents : prop o "events" = VArr evs)
    (Hrow : arrayGet evs index = VObj e)
    (Hstart : lookup "start_time" e = None)
    (Hend : lookup "end_time" e = None) :
  exists editData o' evs' e',
    handleEdit (arrayGet evs index) = Ok (VObj editData) /\
    handleSave (Some (handleEventUpdate (VObj o))) index (VObj editData)
      = Some (Ok (VObj o')) /\
    prop o' "events" = VArr evs' /\
    arrayGet evs' index = VObj e' /\
    prop e' "name" = prop e "name" ||| prop e "event" /\
    prop e' "start" = VUndef /\
    prop e' "end" = VUndef /\
    isMissingTime (VObj e') = Ok true.
Proof.
  set (editData := [("name", prop e "name" ||| prop e "event");
                    ("start_time", VUndef); ("end_time", VUndef)]).
  assert (Hedit : handleEdit (arrayGet evs index) = Ok (VObj editData)).
  { rewrite Hrow. unfold handleEdit, nameCell. cbn [getProp get bind].
    unfold prop at 3 4. now rewrite Hstart, Hend. }
  destruct (replacedEvent_values (arrayGet evs index) (prop editData "name")
              (prop editData "start_time") (prop editData "end_time"))
    as (Hn & Hs & Hst & He & Het).
  exists editData. eexists. eexists. eexists.
  split; [exact Hedit |].
  split.
  { unfold handleSave.
    now rewrite (handleEventUpdate_array o editData evs index Hevents). }
  split; [apply prop_setProp_same |].
  split; [apply arrayGet_arraySet_same |].
  split; [exact Hn |]. split; [exact Hs |]. split; [exact He |].
  rewrite isMissingTime_object, Hst. reflexivity.
Qed.

Lemma unchanged_edit_erases_times_witness :
  exists editData o' evs' e',
    handleEdit (arrayGet [VObj plainNameEvent] 0) = Ok (VObj editData) /\
    handleSave
      (Some (handleEventUpdate
               (VObj [("vessel", VStr "MV TEST");
                      ("events", VArr [VObj plainNameEvent])])))
      0 (VObj editData)
      = Some (Ok (VObj o')) /\
    prop o' "events" = VArr evs' /\
    arrayGet evs' 0 = VObj e' /\
    prop e' "name" = prop plainNameEvent "name" ||| prop plainNameEvent "event" /\
    prop e' "start" = VUndef /\
    prop e' "end" = VUndef /\
    isMissingTime (VObj e') = Ok true.
Proof.
  exact (unchanged_edit_erases_times
           [("vessel", VStr "MV TEST"); ("events", VArr [VObj plainNameEvent])]
           plainNameEvent [VObj plainNameEvent] 0
           eq_refl eq_refl eq_refl eq_refl).
Defined.

(** *** Outcomes and shape of the CSV path *)

Lemma trim_blank_cons (c : ascii) (w : string) :
  isSpace c = true -> trim w = EmptyString -> trim (String c w) = EmptyString.
Proof. unfold trim. simpl. now intros ->. Qed.

Lemma split_blank (sep : ascii) (text : string) :
  forallb isSpace (list_ascii_of_string text) = true ->
  Forall (fun line => trim line = EmptyString) (split sep text).
Proof.
  induction text as [|c text IH]; simpl; intros H.
  - repeat constructor.
  - apply andb_true_iff in H. destruct H as (Hc & Htext).
    specialize (IH Htext).
    destruct (Ascii.eqb c sep).
    + constructor; [reflexivity | exact IH].
    + destruct (split sep text) as [|w ws]; [repeat constructor; now apply trim_blank_cons |].
      inversion IH; subst. constructor; [now apply trim_blank_cons | assumption].
Qed.

Lemma nonBlankLines_blank (text : string) :
  forallb isSpace (list_ascii_of_string text) = true -> nonBlankLines text = [].
Proof.
  intros H. unfold nonBlankLines.
  pose proof (split_blank "010" text H) as Hall.
  induction Hall as [|line lines Hline _ IH]; simpl; [reflexivity |].
  now rewrite Hline.
Qed.

Section CsvOutcomes.
Context {host : Host}.

(** X4.  The outcome of a CSV upload is decided by the lines that are
    not blank: none (an empty file, or white space only) ends in the
    error notice, a header alone in the could-not-extract notice, a header
    with at least one more line in a result object on the page. *)
Theorem processCsvFile_outcomes (text : string) :
  match nonBlankLines text with
  | [] => processCsvFile text = ErrorProcessingCsv
  | [_] => processCsvFile text = CouldNotExtract
  | _ :: _ :: _ => exists r, processCsvFile text = SetExtractedData (VObj r)
  end
  /\ (forallb isSpace (list_ascii_of_string text) = true ->
      processCsvFile text = ErrorProcessingCsv).
Proof.
  assert (Hnone : nonBlankLines text = [] -> processCsvFile text = ErrorProcessingCsv).
  { intros H. unfold processCsvFile. now rewrite H. }
  split.
  - destruct (nonBlankLines text) as [|header [|line1 rest]] eqn:Hlines.
    + now apply Hnone.
    + unfold processCsvFile. rewrite Hlines. reflexivity.
    + unfold processCsvFile. rewrite Hlines. cbn [bind tl try_catch map].
      destruct (extracted_vessel (parseRow (map trim (split "," header)) line1)
                  (map (parseRow (map trim (split "," header))) rest))
        as (r & Hr & _).
      rewrite Hr. cbn [truthy negb try_catch bind]. eauto.
  - intros H. apply Hnone. now apply nonBlankLines_blank.
Qed.

Lemma truthy_ofZ_pos (z : Z) : (0 < z)%Z -> truthy (ofZ z) = true.
Proof.
  intros H. unfold ofZ, truthy, numTruthy, Qeq_bool. simpl.
  destruct z; try lia; reflexivity.
Qed.

Lemma toEvent_fields_truthy (row : object) :
  exists name start end_,
    toEvent row = VObj [("name", name); ("start", start); ("end", end_)]
    /\ truthy name = true /\ truthy start = true /\ truthy end_ = true.
Proof.
  eexists. eexists. eexists. split; [reflexivity |].
  repeat split; now apply or_else_default_truthy.
Qed.

Lemma csv_result_fields (first : object) (rest : list object) :
  exists r evs,
    extractVesselDataFromCsv (first :: rest) = VObj r /\
    map fst r = ["vessel"; "voyageFrom"; "voyageTo"; "cargo"; "port"; "operation";
                 "demurragePerDay"; "dispatchPerDay"; "loadRatePerDay";
                 "cargoQtyMt"; "events"; "sourceFile"] /\
    Forall (fun k => truthy (prop r k) = true)
      ["vessel"; "voyageFrom"; "voyageTo"; "cargo"; "port"; "operation";
       "sourceFile"] /\
    Forall (fun k => exists n, prop r k = VNum n /\ numTruthy n = true)
      ["demurragePerDay"; "dispatchPerDay"; "loadRatePerDay"; "cargoQtyMt"] /\
    prop r "events" = VArr evs /\
    evs = map toEvent (filter isEventRow (first :: rest)) /\
    Forall (fun e => truthy (get e "name") = true /\ truthy (get e "start") = true
                     /\ truthy (get e "end") = true) evs.
Proof.
  unfold extractVesselDataFromCsv.
  set (vesselRow := match vesselLoop _ _ _ with Some row => row | None => first end).
  eexists. eexists. split; [reflexivity |]. split; [reflexivity |].
  split.
  { repeat constructor; unfold prop; cbn [lookup String.eqb Ascii.eqb Bool.eqb];
      unfold vesselField; try reflexivity; now apply or_else_default_truthy. }
  split.
  { assert (Hnum : forall a b z, (0 < z)%Z ->
              exists n, parseFloatOf a ||| parseFloatOf b ||| ofZ z = VNum n
                        /\ numTruthy n = true).
    { intros a b z Hz. pose proof (truthy_ofZ_pos z Hz) as Hd.
      destruct (truthy (parseFloatOf a)) eqn:Ea.
      - rewrite (or_else_truthy_l _ (parseFloatOf b) Ea), (or_else_truthy_l _ _ Ea).
        unfold parseFloatOf in *. eauto.
      - rewrite (or_else_falsy_l _ _ Ea).
        destruct (truthy (parseFloatOf b)) eqn:Eb.
        + rewrite (or_else_truthy_l _ _ Eb). unfold parseFloatOf in *. eauto.
        + rewrite (or_else_falsy_l _ _ Eb). unfold ofZ in *. eauto. }
    repeat constructor; unfold prop; cbn [lookup String.eqb Ascii.eqb Bool.eqb];
      apply Hnum; lia. }
  split; [reflexivity |]. split; [reflexivity |].
  apply Forall_forall. intros e He. apply in_map_iff in He.
  destruct He as (row & <- & _).
  destruct (toEvent_fields_truthy row) as (n & s & e & -> & Hn & Hs & He).
  auto.
Qed.


(** X5.  The result of the CSV path on a table with at least one row is
    an object with the twelve keys of the page in a fixed order.  Every
    field but events is truthy: the texts fall back to their defaults and
    each of the four rates and quantities is a number that is neither zero
    nor NaN, a cell that parses to zero or to NaN being replaced by the
    default.  Every event has a truthy name, start and end. *)
Theorem csv_result_complete (first : object) (rest : list object) :
  exists r evs,
    extractVesselDataFromCsv (first :: rest) = VObj r /\
    map fst r = ["vessel"; "voyageFrom"; "voyageTo"; "cargo"; "port"; "operation";
                 "demurragePerDay"; "dispatchPerDay"; "loadRatePerDay";
                 "cargoQtyMt"; "events"; "sourceFile"] /\
    Forall (fun k => truthy (prop r k) = true)
      ["vessel"; "voyageFrom"; "voyageTo"; "cargo"; "port"; "operation";
       "sourceFile"] /\
    Forall (fun k => exists n, prop r k = VNum n /\ numTruthy n = true)
      ["demurragePerDay"; "dispatchPerDay"; "loadRatePerDay"; "cargoQtyMt"] /\
    prop r "events" = VArr evs /\
    evs = map toEvent (filter isEventRow (first :: rest)) /\
    Forall (fun e => truthy (get e "name") = true /\ truthy (get e "start") = true
                     /\ truthy (get e "end") = true) evs.
Proof. exact (csv_result_fields first rest). Qed.

(** X6.  A CSV result passes the validation gate exactly when some row
    of the table names an event, and sanitizing a CSV result returns it
    unchanged: no event of the CSV path is dropped before a save. *)
Theorem csv_result_gate (first : object) (rest : list object) :
  (validateExtractedData (extractVesselDataFromCsv (first :: rest)) = VBool true
   <-> existsb isEventRow (first :: rest) = true)
  /\ sanitizeDataBeforeSave (extractVesselDataFromCsv (first :: rest))
     = Ok (extractVesselDataFromCsv (first :: rest)).
Proof.
  destruct (csv_result_fields first rest)
    as (r & evs & Hr & Hkeys & Htexts & _ & Hevs & Hdef & Hall).
  rewrite Hr. split.
  - rewrite validate_true_iff. cbn [get truthy]. rewrite Hevs.
    inversion Htexts as [|? ? Hvessel _]; subst.
    rewrite gtZero_length. split.
    + intros (_ & _ & _ & Hne). destruct (filter isEventRow (first :: rest)) as [|row l] eqn:Hf;
        [now elim Hne |].
      apply existsb_exists. exists row.
      assert (Hin : In row (filter isEventRow (first :: rest))) by (rewrite Hf; now left).
      apply filter_In in Hin. exact Hin.
    + intros Hex. repeat split; auto. apply existsb_exists in Hex.
      destruct Hex as (row & Hin & Hrow). intros Hnil.
      assert (Hin' : In (toEvent row) (map toEvent (filter isEventRow (first :: rest)))).
      { apply in_map, filter_In. auto. }
      rewrite Hnil in Hin'. exact Hin'.
  - rewrite (sanitize_object r evs Hevs).
    assert (Hkeep : filter keepEvent evs = evs).
    { clear - Hall. induction Hall as [|e l (Hn & _) _ IH]; simpl; [reflexivity |].
      now rewrite keepEvent_name, Hn, IH. }
    rewrite Hkeep. f_equal. f_equal.
    unfold extractVesselDataFromCsv in Hr. injection Hr as <-.
    unfold prop in Hevs. cbn [lookup String.eqb Ascii.eqb Bool.eqb] in Hevs.
    cbn [setProp String.eqb Ascii.eqb Bool.eqb]. now rewrite <- Hevs.
Qed.

End CsvOutcomes.

Lemma processCsvFile_outcomes_witness :
  @processCsvFile wholeHost (" " ++ newline ++ "  ") = ErrorProcessingCsv.
Proof.
  exact (proj2 (@processCsvFile_outcomes wholeHost (" " ++ newline ++ "  ")) eq_refl).
Defined.

(** *** Storage: what Save and Load do to it *)

Section Storage.
Context {host : Host}.

Lemma saveToLaytime_success (clk : clock) (data sanitized : value)
    (old : list value) (storage : item) :
  truthy (validateExtractedData data) = true ->
  sanitizeDataBeforeSave data = Ok sanitized ->
  parseOrEmpty storage = Ok (VArr old) ->
  saveToLaytime clk data storage
  = (SavedSuccessfully,
     Document (VArr (jsonClone (newItem clk sanitized) :: map jsonClone old))).
Proof.
  intros Hvalid Hsan Hstorage.
  assert (Hdata : truthy data = true).
  { apply validate_truthy_iff, validate_true_iff in Hvalid. tauto. }
  unfold saveToLaytime. rewrite Hdata, Hvalid. cbn [negb].
  rewrite Hsan, Hstorage. cbn [bind unshift try_catch]. unfold setItem.
  now rewrite jsonClone_array, map_cons.
Qed.

Lemma saveToLaytime_cases (clk : clock) (data : value) (storage : item) :
  saveToLaytime clk data storage =
  if negb (truthy data) then (NoDataToSave, storage)
  else if negb (truthy (validateExtractedData data)) then (InvalidOrIncomplete, storage)
  else match sanitizeDataBeforeSave data, parseOrEmpty storage with
       | Ok sanitized, Ok (VArr old) =>
           (SavedSuccessfully,
            Document (VArr (jsonClone (newItem clk sanitized) :: map jsonClone old)))
       | _, _ => (ErrorSaving, storage)
       end.
Proof.
  unfold saveToLaytime.
  destruct (negb (truthy data)); [reflexivity |].
  destruct (negb (truthy (validateExtractedData data))); [reflexivity |].
  destruct (sanitizeDataBeforeSave data) as [sanitized|e]; [| reflexivity].
  destruct (parseOrEmpty storage) as [saved|e]; [| reflexivity].
  destruct saved as [| | | | |old|]; cbn [bind unshift try_catch].
  6: { unfold setItem. rewrite jsonClone_array, map_cons. reflexivity. }
  all: reflexivity.
Qed.

(** X7.  Save touches the storage only when it reports success.  On
    success the result was valid, the storage held a sequence, and the new
    entry is that sequence with exactly one record put in front; a valid
    result meeting a storage entry that is unparsable or no sequence, or an
    events value the sanitizer cannot filter, ends in the error notice with
    the storage as it was. *)
Theorem save_storage_invariant (clk : clock) (data : value) (storage : item) :
  (fst (saveToLaytime clk data storage) <> SavedSuccessfully ->
   snd (saveToLaytime clk data storage) = storage)
  /\ (fst (saveToLaytime clk data storage) = SavedSuccessfully ->
      truthy (validateExtractedData data) = true /\
      exists old sanitized,
        parseOrEmpty storage = Ok (VArr old) /\
        sanitizeDataBeforeSave data = Ok sanitized /\
        snd (saveToLaytime clk data storage)
        = Document (VArr (jsonClone (newItem clk sanitized) :: map jsonClone old)))
  /\ (truthy (validateExtractedData data) = true ->
      (forall old, parseOrEmpty storage <> Ok (VArr old)) ->
      saveToLaytime clk data storage = (ErrorSaving, storage))
  /\ (truthy (validateExtractedData data) = true ->
      (forall sanitized, sanitizeDataBeforeSave data <> Ok sanitized) ->
      saveToLaytime clk data storage = (ErrorSaving, storage)).
Proof.
  rewrite saveToLaytime_cases.
  destruct (truthy data) eqn:Hdata; cbn [negb].
  2: { assert (Hinvalid : truthy (validateExtractedData data) <> true).
       { intros Hv. apply validate_truthy_iff, validate_true_iff in Hv.
         destruct Hv as (Hd & _). congruence. }
       cbn [fst snd]. repeat split; try discriminate; auto; intros; tauto. }
  destruct (truthy (validateExtractedData data)) eqn:Hvalid; cbn [negb fst snd].
  2: { repeat split; try discriminate; auto. }
  destruct (sanitizeDataBeforeSave data) as [sanitized|e] eqn:Hsan.
  2: { cbn [fst snd]. repeat split; try discriminate; auto. }
  destruct (parseOrEmpty storage) as [saved|e] eqn:Hparse.
  2: { cbn [fst snd]. repeat split; try discriminate; auto. }
  destruct saved as [| | | | |old|]; cbn [fst snd];
    try (repeat split; try discriminate; auto; fail).
  split; [intros H; now elim H |].
  split; [intros _; split; [reflexivity | eauto] |].
  split; [intros _ H; now elim (H old) | intros _ H; now elim (H sanitized)].
Qed.

(** X8.  Load never fails.  A storage entry that is unparsable or holds
    no sequence gives the empty list; otherwise the records that pass the
    gate are returned in their order, and every record returned is an
    object that passes the gate. *)
Theorem loadSavedEvents_robust (storage : item) :
  ((forall l, parseOrEmpty storage <> Ok (VArr l)) ->
   SavedEvents.loadSavedEvents storage = [])
  /\ (forall l, parseOrEmpty storage = Ok (VArr l) ->
      SavedEvents.loadSavedEvents storage
      = filter (fun calc => truthy (validateExtractedData calc)) l)
  /\ Forall (fun calc => validateExtractedData calc = VBool true
                         /\ exists o, calc = VObj o)
       (SavedEvents.loadSavedEvents storage).
Proof.
  unfold SavedEvents.loadSavedEvents.
  destruct (parseOrEmpty storage) as [saved|e] eqn:Hparse; cbn [bind try_catch].
  2: { repeat split; auto. intros l H. discriminate. }
  destruct saved as [| | | | |l|]; cbn [bind try_catch];
    try (repeat split; auto; intros l H; discriminate).
  split; [intros H; now elim (H l) |].
  split; [intros l' H; now injection H as -> |].
  apply Forall_forall. intros calc Hin. apply filter_In in Hin.
  destruct Hin as (_ & Hvalid). split.
  - now apply validate_truthy_iff.
  - now apply valid_is_object.
Qed.

End Storage.

Lemma save_storage_invariant_witness :
  @saveToLaytime wholeHost clock0 namedResult Unparsable = (ErrorSaving, Unparsable)
  /\ @saveToLaytime wholeHost clock0 textEventsResult Absent = (ErrorSaving, Absent).
Proof.
  split.
  - apply (proj1 (proj2 (proj2
             (@save_storage_invariant wholeHost clock0 namedResult Unparsable)))).
    + reflexivity.
    + intros old H. discriminate H.
  - apply (proj2 (proj2 (proj2
             (@save_storage_invariant wholeHost clock0 textEventsResult Absent)))).
    + reflexivity.
    + intros sanitized H. discriminate H.
Defined.

Lemma loadSavedEvents_robust_witness :
  @SavedEvents.loadSavedEvents wholeHost (Document (VStr "not a list")) = []
  /\ @SavedEvents.loadSavedEvents wholeHost Unparsable = [].
Proof.
  split.
  - apply (proj1 (@loadSavedEvents_robust wholeHost (Document (VStr "not a list")))).
    intros l H. discriminate H.
  - apply (proj1 (@loadSavedEvents_robust wholeHost Unparsable)).
    intros l H. discriminate H.
Defined.

(** *** The list of saved records: delete, rename, search *)

Lemma filterM_total {A : Type} (f : A -> result bool) (g : A -> bool) (l : list A) :
  Forall (fun a => f a = Ok (g a)) l -> filterM f l = Ok (filter g l).
Proof.
  induction 1 as [|a l Ha _ IH]; simpl; [reflexivity |].
  rewrite Ha. cbn [bind]. rewrite IH. cbn [bind]. now destruct (g a).
Qed.

Lemma mapM_total {A B : Type} (f : A -> result B) (g : A -> B) (l : list A) :
  Forall (fun a => f a = Ok (g a)) l -> mapM f l = Ok (map g l).
Proof.
  induction 1 as [|a l Ha _ IH]; simpl; [reflexivity |].
  rewrite Ha. cbn [bind]. rewrite IH. reflexivity.
Qed.

Lemma getProp_truthy (v : value) (k : string) :
  truthy v = true -> getProp v k = Ok (get v k).
Proof. destruct v; simpl; intros H; try discriminate; reflexivity. Qed.

(** X9.  Deleting by id, once confirmed, removes from the list every
    record whose id is that number and keeps all the others in their
    order; the storage entry is rewritten with the list that remains.
    Declining the confirmation changes neither the list nor the storage. *)
Theorem handleDelete_removes_id (savedEvents : list value) (storage : item)
    (id : number) (Hrecords : Forall (fun e => truthy e = true) savedEvents) :
  exists updated,
    SavedEvents.handleDelete true savedEvents storage id
      = Ok (updated, Document (VArr (map jsonClone updated))) /\
    updated = filter (fun e => negb (strictEqNum (get e "id") id)) savedEvents /\
    Forall (fun e => strictEqNum (get e "id") id = false) updated /\
    (forall e, In e savedEvents -> strictEqNum (get e "id") id = false ->
               In e updated) /\
    List.length updated <= List.length savedEvents /\
    SavedEvents.handleDelete false savedEvents storage id = Ok (savedEvents, storage).
Proof.
  eexists. split.
  { unfold SavedEvents.handleDelete.
    rewrite (filterM_total _ (fun e => negb (strictEqNum (get e "id") id))).
    - cbn [bind]. unfold setItem. now rewrite jsonClone_array.
    - eapply Forall_impl; [| exact Hrecords]. intros e He. cbv beta.
      now rewrite (getProp_truthy e "id" He). }
  split; [reflexivity |].
  split.
  { apply Forall_forall. intros e He. apply filter_In in He.
    now apply negb_true_iff. }
  split.
  { intros e Hin Hid. apply filter_In. split; [exact Hin | now rewrite Hid]. }
  split; [apply filter_length_le | reflexivity].
Qed.

Section Rename.
Context {host : Host}.

Lemma renamed_still_valid (o : object) (title : string) :
  validateExtractedData (VObj o) = VBool true ->
  validateExtractedData (VObj (setProp "title" (VStr title) o)) = VBool true.
Proof.
  rewrite !validate_true_iff. cbn [get truthy].
  now rewrite !(prop_setProp_other "title") by discriminate.
Qed.

(** X10.  Saving an edited title gives it to every record of the list
    whose id is the given number and leaves the other records as they are;
    the list keeps its length and order, a renamed record keeps every
    other field, all records still pass the gate, and the storage entry is
    rewritten with the new list. *)
Theorem handleSaveTitle_renames (savedEvents : list value) (editTitle : string)
    (id : number)
    (Hrecords : Forall (fun e => validateExtractedData e = VBool true) savedEvents) :
  exists updated,
    SavedEvents.handleSaveTitle savedEvents editTitle id
      = Ok (updated, Document (VArr (map jsonClone updated))) /\
    List.length updated = List.length savedEvents /\
    (forall i, i < List.length savedEvents ->
       if strictEqNum (get (arrayGet savedEvents i) "id") id
       then get (arrayGet updated i) "title" = VStr editTitle /\
            (forall k, k <> "title" ->
               get (arrayGet updated i) k = get (arrayGet savedEvents i) k)
       else arrayGet updated i = arrayGet savedEvents i) /\
    Forall (fun e => validateExtractedData e = VBool true) updated.
Proof.
  set (rename := fun event =>
         if strictEqNum (get event "id") id
         then VObj (setProp "title" (VStr editTitle) (spread event))
         else event).
  exists (map rename savedEvents). split.
  { unfold SavedEvents.handleSaveTitle. rewrite (mapM_total _ rename).
    - cbn [bind]. unfold setItem. now rewrite jsonClone_array.
    - eapply Forall_impl; [| exact Hrecords]. intros e He. cbv beta.
      assert (Ht : truthy e = true) by (apply validate_true_iff in He; tauto).
      now rewrite (getProp_truthy e "id" Ht). }
  split; [apply length_map |].
  split.
  { intros i Hi. unfold arrayGet.
    rewrite (nth_indep (map rename savedEvents) VUndef (rename VUndef))
      by (now rewrite length_map).
    rewrite map_nth.
    assert (Hin : In (nth i savedEvents VUndef) savedEvents) by (now apply nth_In).
    rewrite Forall_forall in Hrecords. specialize (Hrecords _ Hin).
    destruct (valid_is_object _ (proj2 (validate_truthy_iff _) Hrecords)) as (o & Ho).
    rewrite Ho. unfold rename. destruct (strictEqNum (get (VObj o) "id") id).
    - cbn [get spread]. split; [apply prop_setProp_same |].
      intros k Hk. now apply prop_setProp_other.
    - reflexivity. }
  apply Forall_forall. intros e He. apply in_map_iff in He.
  destruct He as (e0 & <- & Hin).
  rewrite Forall_forall in Hrecords. specialize (Hrecords _ Hin).
  unfold rename. destruct (strictEqNum (get e0 "id") id); [| exact Hrecords].
  destruct (valid_is_object _ (proj2 (validate_truthy_iff _) Hrecords)) as (o & ->).
  now apply renamed_still_valid.
Qed.

End Rename.

Lemma lowerChar_idempotent (c : ascii) : lowerChar (lowerChar c) = lowerChar c.
Proof. destruct c as [[] [] [] [] [] [] [] []]; reflexivity. Qed.

Lemma toLowerCase_idempotent (s : string) :
  toLowerCase (toLowerCase s) = toLowerCase s.
Proof.
  induction s as [|c s IH]; simpl; [reflexivity |].
  now rewrite lowerChar_idempotent, IH.
Qed.

Lemma includesStr_empty (hay : string) : includesStr EmptyString hay = true.
Proof. destruct hay; reflexivity. Qed.

(** X11.  The search box: with an empty term every record with a
    textual title is listed; the term is compared case-insensitively, a
    term and its lower-case form listing the same records; a record whose
    title contains the term is listed without its vessel or port being
    read. *)
Theorem search_term_properties (savedEvents : list value) (searchTerm : string) :
  (Forall (fun e => exists o s, e = VObj o /\ prop o "title" = VStr s) savedEvents ->
   SavedEvents.filteredEvents savedEvents EmptyString = Ok savedEvents)
  /\ SavedEvents.filteredEvents savedEvents (toLowerCase searchTerm)
     = SavedEvents.filteredEvents savedEvents searchTerm
  /\ (forall (o : object) (title : string),
        prop o "title" = VStr title ->
        includesStr (toLowerCase searchTerm) (toLowerCase title) = true ->
        SavedEvents.matchesSearch searchTerm (VObj o) = Ok true).
Proof.
  split; [| split].
  - intros Hall. unfold SavedEvents.filteredEvents.
    rewrite (filterM_total _ (fun _ => true)).
    + f_equal. clear. induction savedEvents as [|e l IH]; simpl; [| rewrite IH]; reflexivity.
    + eapply Forall_impl; [| exact Hall]. intros e (o & s & -> & Ht).
      unfold SavedEvents.matchesSearch. cbn [getProp get bind]. rewrite Ht.
      cbn [SavedEvents.lower bind toLowerCase]. now rewrite includesStr_empty.
  - unfold SavedEvents.filteredEvents, SavedEvents.matchesSearch.
    now rewrite toLowerCase_idempotent.
  - intros o title Ht Hin. unfold SavedEvents.matchesSearch.
    cbn [getProp get bind]. rewrite Ht. cbn [SavedEvents.lower bind].
    now rewrite Hin.
Qed.

Lemma handleDelete_removes_id_witness :
  exists updated,
    SavedEvents.handleDelete true [recordA; recordB] Absent
      (Finite (inject_Z 1700000000000))
    = Ok (updated, Document (VArr (map jsonClone updated)))
    /\ updated = [recordB].
Proof.
  destruct (handleDelete_removes_id [recordA; recordB] Absent
              (Finite (inject_Z 1700000000000)))
    as (updated & Hdel & Hupd & _).
  - repeat constructor.
  - exists updated. split; [exact Hdel |]. rewrite Hupd. reflexivity.
Defined.

Lemma handleSaveTitle_renames_witness :
  exists updated,
    SavedEvents.handleSaveTitle [recordA; recordB] "Coal run"
      (Finite (inject_Z 1700000000001))
    = Ok (updated, Document (VArr (map jsonClone updated)))
    /\ List.length updated = 2.
Proof.
  destruct (@handleSaveTitle_renames wholeHost [recordA; recordB] "Coal run"
              (Finite (inject_Z 1700000000001)))
    as (updated & Hren & Hlen & _).
  - repeat constructor.
  - exists updated. split; [exact Hren | exact Hlen].
Defined.

Lemma search_term_properties_witness :
  SavedEvents.filteredEvents [recordA; recordB] EmptyString = Ok [recordA; recordB]
  /\ SavedEvents.matchesSearch "mv test" recordA = Ok true.
Proof.
  split.
  - apply (proj1 (search_term_properties [recordA; recordB] EmptyString)).
    repeat constructor; eexists; eexists; split; reflexivity.
  - apply (proj2 (proj2 (search_term_properties [recordA; recordB] "mv test"))
             _ "MV TEST - 11/14/2023"); reflexivity.
Defined.

(** *** Exporting the events and importing the file again *)

Lemma split_no_separator (sep : ascii) (s : string) :
  includes sep s = false -> split sep s = [s].
Proof.
  induction s as [|c s IH]; simpl; [reflexivity |].
  intros H. apply orb_false_iff in H. destruct H as (Hc & Hs).
  rewrite Hc, (IH Hs). reflexivity.
Qed.

Lemma split_at_separator (sep : ascii) (a b : string) :
  includes sep a = false ->
  split sep (a ++ String sep b) = a :: split sep b.
Proof.
  induction a as [|c a IH]; simpl; intros H.
  - now rewrite Ascii.eqb_refl.
  - apply orb_false_iff in H. destruct H as (Hc & Ha).
    rewrite Hc, (IH Ha). reflexivity.
Qed.

Lemma split_concat (sep : ascii) (l : list string) :
  l <> [] ->
  Forall (fun s => includes sep s = false) l ->
  split sep (String.concat (String sep EmptyString) l) = l.
Proof.
  intros Hne Hall. induction Hall as [|x l Hx Hl IH]; [congruence |].
  destruct l as [|y l].
  - simpl. now apply split_no_separator.
  - change (String.concat (String sep EmptyString) (x :: y :: l))
      with (x ++ String sep (String.concat (String sep EmptyString) (y :: l)))%string.
    rewrite split_at_separator by exact Hx. f_equal. apply IH. discriminate.
Qed.

Lemma includes_app (c : ascii) (a b : string) :
  includes c (a ++ b) = includes c a || includes c b.
Proof.
  induction a as [|x a IH]; simpl; [reflexivity |].
  now rewrite IH, orb_assoc.
Qed.

Lemma trimEnd_quote (x : string) : trimEnd (x ++ dquote) = (x ++ dquote)%string.
Proof.
  induction x as [|c x IH]; [reflexivity |].
  cbn [append trimEnd]. rewrite IH.
  destruct (x ++ dquote)%string eqn:E; [| reflexivity].
  destruct x; discriminate E.
Qed.

Lemma trim_quoted (s : string) : trim (quoted s) = quoted s.
Proof.
  unfold trim, quoted. change (trimStart (dquote ++ s ++ dquote))
    with (dquote ++ s ++ dquote)%string.
  rewrite <- string_app_assoc. apply trimEnd_quote.
Qed.

Lemma quoted_not_empty (s : string) : quoted s <> EmptyString.
Proof. discriminate. Qed.

Lemma or_else_text (s : string) : VStr s ||| VStr EmptyString = VStr s.
Proof.
  unfold or_else. simpl. destruct (String.eqb_spec s EmptyString) as [->|]; reflexivity.
Qed.

Lemma truthy_text (s : string) : s <> EmptyString -> truthy (VStr s) = true.
Proof. intros H. simpl. apply negb_true_iff. now apply String.eqb_neq. Qed.

(** The line of the export for an event of three texts, and the row the
    CSV path reads from it. *)
Lemma exported_line_parsed (n s e : string) :
  plainCell n = true -> plainCell s = true -> plainCell e = true ->
  trim s = s -> trim e = e ->
  parseRow ["Event Name"; "Start Time"; "End Time"]
    (quoted n ++ "," ++ s ++ "," ++ e)
  = [("Event Name", VStr (quoted n)); ("Start Time", VStr s); ("End Time", VStr e)].
Proof.
  unfold plainCell. rewrite !andb_true_iff, !negb_true_iff.
  intros (Hn & _) (Hs & _) (He & _) Hts Hte.
  unfold parseRow.
  change (quoted n ++ "," ++ s ++ "," ++ e)%string
    with (quoted n ++ String "," (s ++ String "," e))%string.
  rewrite split_at_separator.
  2: { unfold quoted. rewrite !includes_app, Hn. reflexivity. }
  rewrite split_at_separator by exact Hs.
  rewrite split_no_separator by exact He.
  cbn [map]. rewrite trim_quoted, Hts, Hte.
  cbn [forEachHeader map arrayGet nth setProp String.eqb Ascii.eqb Bool.eqb].
  now rewrite !or_else_text.
Qed.

Lemma imported_event (n s e : string) :
  s <> EmptyString -> e <> EmptyString ->
  let row := [("Event Name", VStr (quoted n)); ("Start Time", VStr s);
              ("End Time", VStr e)] in
  isEventRow row = true /\ matchesVessel row = false
  /\ toEvent row = eventOf (quoted n, s, e).
Proof.
  intros Hs He row.
  pose proof (truthy_text s Hs) as Ts. pose proof (truthy_text e He) as Te.
  split; [reflexivity |]. split; [reflexivity |].
  unfold toEvent, eventOf, row, prop.
  cbn [lookup String.eqb Ascii.eqb Bool.eqb].
  rewrite (or_else_truthy_l (VStr s) _ Ts), (or_else_truthy_l (VStr e) _ Te).
  rewrite !(or_else_truthy_l (VStr s)), !(or_else_truthy_l (VStr e)) by assumption.
  reflexivity.
Qed.

Lemma trim_starts_with_text (c : ascii) (w : string) :
  isSpace c = false -> trim (String c w) <> EmptyString.
Proof.
  intros Hc. unfold trim. cbn [trimStart]. rewrite Hc. cbn [trimEnd].
  destruct (trimEnd w); [rewrite Hc |]; discriminate.
Qed.

Lemma filter_all {A : Type} (f : A -> bool) (l : list A) :
  Forall (fun a => f a = true) l -> filter f l = l.
Proof.
  induction 1 as [|a l Ha _ IH]; simpl; [reflexivity |]. now rewrite Ha, IH.
Qed.

Lemma find_none_all {A : Type} (f : A -> bool) (l : list A) :
  Forall (fun a => f a = false) l -> find f l = None.
Proof.
  induction 1 as [|a l Ha _ IH]; simpl; [reflexivity |]. now rewrite Ha.
Qed.

Lemma Forall_firstn {A : Type} (P : A -> Prop) (n : nat) (l : list A) :
  Forall P l -> Forall P (firstn n l).
Proof.
  intros H. revert n. induction H as [|a l Ha _ IH]; intros [|n]; simpl;
    constructor; auto.
Qed.

Section RoundTrip.
Context {host : Host}.

Lemma exported_lines (cells : list (string * string * string)) :
  mapM exportRow (map eventOf cells) = Ok (map exportedLine cells).
Proof.
  induction cells as [|[[n s] e] cells IH]; [reflexivity |].
  cbn [map mapM]. rewrite IH. reflexivity.
Qed.

Lemma exported_text (o : object) (cells : list (string * string * string)) :
  prop o "events" = VArr (map eventOf cells) ->
  exportToCSV (VObj o)
  = Ok (Some (String.concat newline
                ("Event Name,Start Time,End Time" :: map exportedLine cells))).
Proof.
  intros H. unfold exportToCSV. cbn [get truthy negb orb]. rewrite H.
  cbn [truthy negb orb]. rewrite exported_lines. reflexivity.
Qed.

Lemma exported_nonBlankLines (cells : list (string * string * string)) :
  Forall importable cells ->
  nonBlankLines (String.concat newline
                   ("Event Name,Start Time,End Time" :: map exportedLine cells))
  = "Event Name,Start Time,End Time" :: map exportedLine cells.
Proof.
  intros Hall. unfold nonBlankLines, newline.
  rewrite split_concat; [| discriminate |].
  - apply filter_all. constructor; [reflexivity |].
    apply Forall_map. eapply Forall_impl; [| exact Hall].
    intros [[n s] e] _. apply negb_true_iff, String.eqb_neq.
    unfold exportedLine, quoted, dquote. cbn [append].
    now apply trim_starts_with_text.
  - constructor; [reflexivity |].
    apply Forall_map. eapply Forall_impl; [| exact Hall].
    intros [[n s] e] (Hn & Hs & He & _). unfold plainCell in *.
    rewrite andb_true_iff, !negb_true_iff in Hn, Hs, He.
    unfold exportedLine, quoted. rewrite !includes_app.
    destruct Hn as (_ & ->), Hs as (_ & ->), He as (_ & ->). reflexivity.
Qed.

(** X12.  Exporting events of three plain texts (no comma, no line
    feed, times without surrounding blanks and not empty) and importing
    the exported file through the CSV path gives the same events back in
    their order with their start and end, except that every name comes
    back between double quotes; the imported result has no vessel but the
    default. *)
Theorem export_then_import (o : object) (cells : list (string * string * string))
    (Hnonempty : cells <> [])
    (Hevents : prop o "events" = VArr (map eventOf cells))
    (Hplain : Forall importable cells) :
  exists text r,
    exportToCSV (VObj o) = Ok (Some text) /\
    processCsvFile text = SetExtractedData (VObj r) /\
    prop r "events"
      = VArr (map (fun '(n, s, e) => eventOf (quoted n, s, e)) cells) /\
    prop r "vessel" = VStr "Unknown Vessel".
Proof.
  assert (Hrows : map (parseRow (map trim (split "," "Event Name,Start Time,End Time")))
                    (map exportedLine cells)
                  = map importedRow cells).
  { rewrite map_map. apply map_ext_in. intros [[n s] e] Hin.
    rewrite Forall_forall in Hplain.
    destruct (Hplain _ Hin) as (Hn & Hs & He & Hts & Hte & _).
    now apply exported_line_parsed. }
  assert (Hrowfacts : Forall (fun row => isEventRow row = true
                                         /\ matchesVessel row = false)
                        (map importedRow cells)).
  { apply Forall_map. eapply Forall_impl; [| exact Hplain].
    intros [[n s] e] (_ & _ & _ & _ & _ & Hs & He).
    destruct (imported_event n s e Hs He) as (H1 & H2 & _). auto. }
  pose proof (exported_text o cells Hevents) as Htext.
  pose proof (exported_nonBlankLines cells Hplain) as Hlines.
  destruct cells as [|c cells]; [congruence |].
  destruct (csv_result_fields (importedRow c) (map importedRow cells))
    as (r & evs & Hr & _ & _ & _ & Hevs & Hdef & _).
  destruct (extracted_vessel (importedRow c) (map importedRow cells))
    as (r' & Hr' & Hvessel).
  rewrite Hr in Hr'. injection Hr' as <-.
  eexists. exists r. split; [exact Htext |].
  split.
  { unfold processCsvFile. rewrite Hlines.
    cbn [bind tl try_catch]. rewrite Hrows. cbn [map]. rewrite Hr. reflexivity. }
  split.
  - rewrite Hevs, Hdef. f_equal.
    rewrite filter_all
      by (eapply Forall_impl; [| exact Hrowfacts]; intros row Hrow; apply Hrow).
    change (importedRow c :: map importedRow cells) with (map importedRow (c :: cells)).
    rewrite map_map. apply map_ext_in. intros [[n s] e] Hin.
    rewrite Forall_forall in Hplain.
    destruct (Hplain _ Hin) as (_ & _ & _ & _ & _ & Hs & He).
    apply (imported_event n s e Hs He).
  - rewrite Hvessel, find_none_all.
    + apply vesselField_no_match.
      inversion Hrowfacts as [|? ? (_ & Hv) _]; subst. exact Hv.
    + apply Forall_firstn. eapply Forall_impl; [| exact Hrowfacts].
      intros row Hrow. apply Hrow.
Qed.

End RoundTrip.

Lemma export_then_import_witness :
  exists text r,
    @exportToCSV wholeHost (VObj [("events", VArr [VObj plainNameEvent])])
      = Ok (Some text) /\
    @processCsvFile wholeHost text = SetExtractedData (VObj r) /\
    prop r "events" = VArr [eventOf (quoted "Loading", "08:00", "10:00")] /\
    prop r "vessel" = VStr "Unknown Vessel".
Proof.
  apply (@export_then_import wholeHost [("events", VArr [VObj plainNameEvent])]
           [("Loading", "08:00", "10:00")]).
  - discriminate.
  - reflexivity.
  - repeat constructor; try reflexivity; discriminate.
Defined.

(** *** The extraction client: endpoint and payload edges *)

Lemma stripTrailingSlash_slash (url : string) :
  stripTrailingSlash (url ++ "/") = url.
Proof.
  induction url as [|c url IH]; [reflexivity |].
  cbn [append stripTrailingSlash]. rewrite IH.
  destruct (url ++ "/")%string eqn:E; [| reflexivity].
  destruct url; discriminate E.
Qed.

(** X13.  One trailing slash of the configured address is dropped
    before the path is appended: an address without a final slash and the
    same address with one are served by the same request. *)
Theorem extractEvents_trailing_slash (url : string)
    (fetch : string -> value -> result response) (formData : value)
    (Hconfigured : url <> EmptyString)
    (Hnoslash : stripTrailingSlash url = url) :
  extractEvents (Some (url ++ "/")%string) fetch formData
  = extractEvents (Some url) fetch formData
  /\ (stripTrailingSlash (url ++ "/") ++ "/extract" = url ++ "/extract")%string.
Proof.
  split; [| now rewrite stripTrailingSlash_slash].
  unfold extractEvents. rewrite stripTrailingSlash_slash, Hnoslash.
  apply String.eqb_neq in Hconfigured. rewrite Hconfigured.
  destruct (url ++ "/")%string eqn:E; [destruct url; discriminate E |].
  reflexivity.
Qed.

Lemma extractEvents_trailing_slash_witness :
  extractEvents (Some "http://localhost:8000/")
    (fun u _ => Ok (Response true (Ok (VObj [("vessel", VStr u)])))) VNull
  = extractEvents (Some "http://localhost:8000")
      (fun u _ => Ok (Response true (Ok (VObj [("vessel", VStr u)])))) VNull.
Proof.
  apply (extractEvents_trailing_slash "http://localhost:8000"
           (fun u _ => Ok (Response true (Ok (VObj [("vessel", VStr u)])))) VNull).
  - discriminate.
  - reflexivity.
Defined.

(** X14.  With a configured service and a success status, a body that
    is no JSON or that is the JSON null ends in the failure of the client;
    a payload that is a number, a text, a truth value or an array yields
    the four defaults; and a vessel, cargo or port that is present but
    falsy is replaced by its default like an absent one. *)
Theorem extractEvents_payload_edges (url : string)
    (fetch : string -> value -> result response) (formData : value)
    (Hconfigured : url <> EmptyString) :
  (forall body,
     fetch (stripTrailingSlash url ++ "/extract")%string formData
       = Ok (Response true body) ->
     body = Ok VNull \/ (exists e, body = Throw e) ->
     extractEvents (Some url) fetch formData
     = Throw (Error "Extraction service unavailable"))
  /\ (forall data,
        fetch (stripTrailingSlash url ++ "/extract")%string formData
          = Ok (Response true (Ok data)) ->
        (forall o, data <> VObj o) -> data <> VNull -> data <> VUndef ->
        extractEvents (Some url) fetch formData
        = Ok (VObj [("vessel", VStr "Unknown Vessel"); ("cargo", VStr EmptyString);
                    ("port", VStr EmptyString); ("events", VArr [])]))
  /\ (forall payload : object,
        fetch (stripTrailingSlash url ++ "/extract")%string formData
          = Ok (Response true (Ok (VObj payload))) ->
        exists r,
          extractEvents (Some url) fetch formData = Ok (VObj r) /\
          (truthy (prop payload "vessel") = false ->
           prop r "vessel" = VStr "Unknown Vessel") /\
          (truthy (prop payload "cargo") = false -> prop r "cargo" = VStr EmptyString) /\
          (truthy (prop payload "port") = false -> prop r "port" = VStr EmptyString) /\
          (truthy (prop payload "vessel") = true ->
           prop r "vessel" = prop payload "vessel")).
Proof.
  pose proof (proj2 (String.eqb_neq _ _) Hconfigured) as Hurl.
  split; [| split].
  - intros body Hfetch Hbody. unfold extractEvents. rewrite Hurl. cbn [negb].
    rewrite Hfetch. cbn [bind ok json negb catch].
    destruct Hbody as [-> | (e & ->)]; reflexivity.
  - intros data Hfetch Hobj Hnull Hundef. unfold extractEvents.
    rewrite Hurl. cbn [negb]. rewrite Hfetch. cbn [bind ok json negb catch].
    destruct data; try congruence; cbn [getProp get bind catch or_else truthy];
      try reflexivity.
  - intros payload Hfetch. eexists.
    split; [apply (extractEvents_success url fetch formData payload Hconfigured Hfetch) |].
    unfold prop at 1 3 5 7. cbn [lookup String.eqb Ascii.eqb Bool.eqb].
    repeat split; intros H.
    + now apply or_else_falsy_l.
    + now apply or_else_falsy_l.
    + now apply or_else_falsy_l.
    + now apply or_else_truthy_l.
Qed.

Lemma extractEvents_payload_edges_witness :
  extractEvents (Some "http://localhost:8000")
    (fun _ _ => Ok (Response true (Ok VNull))) VNull
  = Throw (Error "Extraction service unavailable").
Proof.
  apply (proj1 (extractEvents_payload_edges "http://localhost:8000"
                  (fun _ _ => Ok (Response true (Ok VNull))) VNull
                  ltac:(discriminate)) (Ok VNull)).
  - reflexivity.
  - now left.
Defined.

(** *** Edges of the export of the pages *)

Lemma mapM_length {A B : Type} (f : A -> result B) (l : list A) (out : list B) :
  mapM f l = Ok out -> List.length out = List.length l.
Proof.
  revert out. induction l as [|a l IH]; simpl; intros out H.
  - now injection H as <-.
  - destruct (f a) as [b|e]; [| discriminate]. cbn [bind] in H.
    destruct (mapM f l) as [bs|e]; [| discriminate]. cbn [bind] in H.
    injection H as <-. simpl. now rewrite (IH bs).
Qed.

Lemma mapM_all_ok {A B : Type} (f : A -> result B) (l : list A) :
  Forall (fun a => exists b, f a = Ok b) l -> exists out, mapM f l = Ok out.
Proof.
  induction 1 as [|a l (b & Hb) _ (out & IH)]; simpl; [eauto |].
  rewrite Hb, IH. cbn [bind]. eauto.
Qed.

Lemma mapM_throws {A B : Type} (f : A -> result B) (l : list A) (e : exn) :
  (forall a e', f a = Throw e' -> e' = e) ->
  Exists (fun a => exists e', f a = Throw e') l ->
  mapM f l = Throw e.
Proof.
  intros Hsame. induction l as [|a l IH]; intros Hex; [inversion Hex |].
  simpl. destruct (f a) as [b|e'] eqn:Ha.
  - cbn [bind]. inversion Hex as [? ? (e' & He') | ? ? Hl]; subst; [congruence |].
    now rewrite (IH Hl).
  - cbn [bind]. now rewrite (Hsame a e' Ha).
Qed.

Section ExportEdges.
Context {host : Host}.

Lemma exportRow_cases (event : value) :
  match event with
  | VUndef | VNull => exportRow event = Throw TypeError
  | _ => exists line, exportRow event = Ok line
  end.
Proof. destruct event; cbn; eauto. Qed.

(** X15.  The export of the pages hands nothing to the download when
    there is no result or no events value; an empty event array exports the
    header line alone; an array of events exports the header and one line
    per event; a null or undefined entry in the array, or an events value
    that is truthy but no array, makes the export throw a type error. *)
Theorem exportToCSV_edges (data : value) :
  (truthy data = false \/ truthy (get data "events") = false ->
   exportToCSV data = Ok None)
  /\ (truthy data = true -> get data "events" = VArr [] ->
      exportToCSV data = Ok (Some "Event Name,Start Time,End Time"))
  /\ (forall evs,
        truthy data = true -> get data "events" = VArr evs ->
        Forall (fun e => e <> VUndef /\ e <> VNull) evs ->
        exists lines,
          exportToCSV data
          = Ok (Some (String.concat newline
                        ("Event Name,Start Time,End Time" :: lines))) /\
          List.length lines = List.length evs)
  /\ (forall evs,
        truthy data = true -> get data "events" = VArr evs ->
        In VNull evs \/ In VUndef evs ->
        exportToCSV data = Throw TypeError)
  /\ (truthy data = true -> truthy (get data "events") = true ->
      (forall evs, get data "events" <> VArr evs) ->
      exportToCSV data = Throw TypeError).
Proof.
  unfold exportToCSV.
  split; [| split; [| split; [| split]]].
  - intros [-> | ->]; [reflexivity |]. now rewrite orb_true_r.
  - intros -> ->. reflexivity.
  - intros evs -> -> Hall. cbn [truthy negb orb].
    destruct (mapM_all_ok exportRow evs) as (lines & Hlines).
    { eapply Forall_impl; [| exact Hall]. intros e (Hu & Hn).
      pose proof (exportRow_cases e) as Hc. destruct e; try congruence; exact Hc. }
    rewrite Hlines. cbn [bind]. exists lines. split; [reflexivity |].
    now apply (mapM_length exportRow).
  - intros evs -> -> Hin. cbn [truthy negb orb].
    rewrite (mapM_throws exportRow evs TypeError); [reflexivity | |].
    + intros a e' Ha. pose proof (exportRow_cases a) as Hc.
      destruct a; try (destruct Hc as (line & Hc)); congruence.
    + apply Exists_exists. destruct Hin as [Hin | Hin].
      * exists VNull. split; [exact Hin | now exists TypeError].
      * exists VUndef. split; [exact Hin | now exists TypeError].
  - intros -> Hev Hnot. rewrite Hev. cbn [negb orb].
    destruct (get data "events"); try reflexivity; try discriminate.
    now elim (Hnot elems).
Qed.

End ExportEdges.

Lemma exportToCSV_edges_witness :
  @exportToCSV wholeHost emptyEventsResult = Ok (Some "Event Name,Start Time,End Time")
  /\ @exportToCSV wholeHost textEventsResult = Throw TypeError.
Proof.
  split.
  - apply (proj1 (proj2 (@exportToCSV_edges wholeHost emptyEventsResult)));
      reflexivity.
  - apply (proj2 (proj2 (proj2 (proj2
             (@exportToCSV_edges wholeHost textEventsResult)))));
      try reflexivity.
    intros evs H. discriminate H.
Defined.

(** *** Saving, listing and deleting *)

Lemma numEq_refl_finite (z : Z) :
  numEq (Finite (inject_Z z)) (Finite (inject_Z z)) = true.
Proof. simpl. apply Qeq_bool_iff. reflexivity. Qed.

Section SaveListDelete.
Context {host : Host}.

Lemma stored_record_id (clk : clock) (sanitized : value) :
  get (jsonClone (newItem clk sanitized)) "id" = ofZ (Date_now clk).
Proof.
  destruct (newItem_keys_distinct clk sanitized) as (fields & Hfields & Hnd).
  assert (Fid : prop fields "id" = ofZ (Date_now clk))
    by (unfold newItem in Hfields; injection Hfields as <-; reflexivity).
  rewrite Hfields, jsonClone_object. cbn [get].
  now rewrite (prop_cloneProps _ fields Hnd), Fid.
Qed.

(** What Load returns right after a successful Save. *)
Lemma save_load_head (clk : clock) (o : object) (vessel port : string)
    (evs old : list value) (storage : item) :
  prop o "vessel" = VStr vessel ->
  prop o "port" = VStr port ->
  prop o "events" = VArr evs ->
  truthy (validateExtractedData (VObj o)) = true ->
  filter keepEvent evs <> [] ->
  parseOrEmpty storage = Ok (VArr old) ->
  let sanitized := VObj (setProp "events" (VArr (filter keepEvent evs)) o) in
  saveToLaytime clk (VObj o) storage
  = (SavedSuccessfully,
     Document (VArr (jsonClone (newItem clk sanitized) :: map jsonClone old)))
  /\ SavedEvents.loadSavedEvents (snd (saveToLaytime clk (VObj o) storage))
     = jsonClone (newItem clk sanitized)
       :: filter (fun calc => truthy (validateExtractedData calc)) (map jsonClone old)
  /\ truthy (validateExtractedData (jsonClone (newItem clk sanitized))) = true.
Proof.
  intros Hvessel Hport Hevents Hvalid Hkept Hstorage sanitized.
  set (kept := filter keepEvent evs) in *.
  set (o' := setProp "events" (VArr kept) o) in *.
  assert (Hsave : saveToLaytime clk (VObj o) storage
                  = (SavedSuccessfully,
                     Document (VArr (jsonClone (newItem clk sanitized)
                                     :: map jsonClone old)))).
  { apply saveToLaytime_success; auto. apply (sanitize_object o evs Hevents). }
  split; [exact Hsave |]. rewrite Hsave. cbn [snd].
  assert (Hv' : prop o' "vessel" = VStr vessel)
    by (subst o'; rewrite prop_setProp_other by discriminate; exact Hvessel).
  assert (Hp' : prop o' "port" = VStr port)
    by (subst o'; rewrite prop_setProp_other by discriminate; exact Hport).
  assert (He' : prop o' "events" = VArr kept)
    by (subst o'; apply prop_setProp_same).
  assert (Htruthy : truthy (VStr vessel) = true).
  { apply validate_truthy_iff, validate_true_iff in Hvalid.
    destruct Hvalid as (_ & Hv & _). cbn [get] in Hv. now rewrite Hvessel in Hv. }
  destruct (stored_record_fields clk o' vessel port kept Hv' Hp' He')
    as (Rv & _ & _ & Re & _).
  assert (Hrec : truthy (validateExtractedData (jsonClone (newItem clk sanitized))) = true).
  { apply (valid_stored_record _ vessel kept); auto.
    destruct (newItem_keys_distinct clk sanitized) as (fields & -> & _).
    rewrite jsonClone_object. eauto. }
  split; [| exact Hrec].
  unfold SavedEvents.loadSavedEvents. cbn [parseOrEmpty bind try_catch filter].
  now rewrite Hrec.
Qed.

(** X16.  After a successful Save, deleting by the id of the record that
    Load lists first removes that record, together with every older record
    that carries the same id (a save in the same millisecond); when no
    older record shares the id, the list is again what it was before the
    save. *)
Theorem save_then_delete (clk : clock) (o : object) (vessel port : string)
    (evs old : list value) (storage : item)
    (Hvessel : prop o "vessel" = VStr vessel)
    (Hport : prop o "port" = VStr port)
    (Hevents : prop o "events" = VArr evs)
    (Hvalid : truthy (validateExtractedData (VObj o)) = true)
    (Hnamed : filter keepEvent evs <> [])
    (Hstorage : parseOrEmpty storage = Ok (VArr old)) :
  exists record rest updated,
    SavedEvents.loadSavedEvents (snd (saveToLaytime clk (VObj o) storage))
      = record :: rest /\
    get record "id" = ofZ (Date_now clk) /\
    SavedEvents.handleDelete true (record :: rest)
      (snd (saveToLaytime clk (VObj o) storage)) (Finite (inject_Z (Date_now clk)))
      = Ok (updated, Document (VArr (map jsonClone updated))) /\
    updated = filter (fun e => negb (strictEqNum (get e "id")
                                       (Finite (inject_Z (Date_now clk))))) rest /\
    (Forall (fun e => strictEqNum (get e "id") (Finite (inject_Z (Date_now clk)))
                      = false) rest ->
     updated = rest).
Proof.
  destruct (save_load_head clk o vessel port evs old storage
              Hvessel Hport Hevents Hvalid Hnamed Hstorage) as (_ & Hload & _).
  set (sanitized := VObj (setProp "events" (VArr (filter keepEvent evs)) o)) in *.
  set (id := Finite (inject_Z (Date_now clk))).
  set (rest := filter (fun calc => truthy (validateExtractedData calc))
                 (map jsonClone old)) in *.
  pose proof (stored_record_id clk sanitized) as Hid.
  exists (jsonClone (newItem clk sanitized)), rest.
  exists (filter (fun e => negb (strictEqNum (get e "id") id)) rest).
  split; [exact Hload |]. split; [exact Hid |].
  split.
  { unfold SavedEvents.handleDelete.
    rewrite (filterM_total _ (fun e => negb (strictEqNum (get e "id") id))).
    - cbn [bind filter]. rewrite Hid. unfold ofZ, id. cbn [strictEqNum].
      rewrite numEq_refl_finite. cbn [negb]. unfold setItem.
      now rewrite jsonClone_array.
    - constructor.
      + destruct (newItem_keys_distinct clk sanitized) as (fields & Hf & _).
        rewrite Hf, jsonClone_object. reflexivity.
      + apply Forall_forall. intros e He. apply filter_In in He.
        destruct He as (_ & He). cbv beta.
        rewrite getProp_truthy; [reflexivity |].
        apply validate_truthy_iff, validate_true_iff in He. tauto. }
  split; [reflexivity |].
  intros Hall. apply filter_all. eapply Forall_impl; [| exact Hall].
  intros e He. cbv beta. now rewrite He.
Qed.

End SaveListDelete.

Lemma save_then_delete_witness :
  exists record,
    @SavedEvents.loadSavedEvents wholeHost
      (snd (@saveToLaytime wholeHost clock0 namedResult Absent)) = [record]
    /\ SavedEvents.handleDelete true [record]
         (snd (@saveToLaytime wholeHost clock0 namedResult Absent))
         (Finite (inject_Z 1700000000000))
       = Ok ([], Document (VArr [])).
Proof.
  destruct (@save_then_delete wholeHost clock0
              [("vessel", VStr "MV TEST"); ("cargo", VStr "Coal");
               ("port", VStr "Rotterdam");
               ("events", VArr [VObj [("name", VStr "Loading");
                                      ("start_time", VStr "08:00");
                                      ("end_time", VStr "10:00")];
                                VObj [("event", VStr "Shifting");
                                      ("start_time", VStr "10:00");
                                      ("end_time", VStr "11:00")]])]
              "MV TEST" "Rotterdam" _ [] Absent
              eq_refl eq_refl eq_refl eq_refl ltac:(discriminate) eq_refl)
    as (record & rest & updated & Hload & _ & Hdel & Hupd & _).
  assert (Hrest : rest = []).
  { change (snd (@saveToLaytime wholeHost clock0 namedResult Absent))
      with (snd (@saveToLaytime wholeHost clock0
                   (VObj [("vessel", VStr "MV TEST"); ("cargo", VStr "Coal");
                          ("port", VStr "Rotterdam");
                          ("events", VArr [VObj [("name", VStr "Loading");
                                                 ("start_time", VStr "08:00");
                                                 ("end_time", VStr "10:00")];
                                           VObj [("event", VStr "Shifting");
                                                 ("start_time", VStr "10:00");
                                                 ("end_time", VStr "11:00")]])])
                   Absent)) in *.
    vm_compute in Hload. now injection Hload. }
  subst rest. simpl in Hupd. subst updated.
  exists record. split; [exact Hload | exact Hdel].
Defined.

(** *** From a CSV upload to the list of saved records *)

Lemma cell_is_text (values : list string) (index : nat) :
  exists s, arrayGet (map VStr values) index ||| VStr EmptyString = VStr s.
Proof.
  unfold arrayGet.
  destruct (nth_in_or_default index (map VStr values) VUndef) as [Hin | ->].
  - apply in_map_iff in Hin. destruct Hin as (x & <- & _).
    exists x. apply or_else_text.
  - exists EmptyString. reflexivity.
Qed.

Lemma setProp_textRow (k s : string) (row : object) :
  textRow row -> textRow (setProp k (VStr s) row).
Proof.
  intros Hrow k' v'. destruct (String.eqb_spec k' k) as [->|Hne].
  - rewrite lookup_setProp_same. intros H. injection H as <-. eauto.
  - rewrite lookup_setProp_other by exact Hne. apply Hrow.
Qed.

Lemma forEachHeader_textRow (headers : list string) (index : nat)
    (values : list string) (row : object) :
  textRow row -> textRow (forEachHeader headers index values row).
Proof.
  revert index row. induction headers as [|header rest IH]; intros index row Hrow;
    [exact Hrow |].
  cbn [forEachHeader]. apply IH.
  destruct (cell_is_text values index) as (s & ->). now apply setProp_textRow.
Qed.

Lemma parseRow_textRow (headers : list string) (line : string) :
  textRow (parseRow headers line).
Proof. apply forEachHeader_textRow. intros k v H. discriminate H. Qed.

Lemma textRow_prop (row : object) (k : string) :
  textRow row -> textOrUndefined (prop row k).
Proof.
  intros Hrow. unfold prop. destruct (lookup k row) as [v|] eqn:E.
  - right. now apply (Hrow k).
  - now left.
Qed.

Lemma textOrUndefined_or (a b : value) :
  textOrUndefined a -> textOrUndefined b -> textOrUndefined (a ||| b).
Proof.
  intros Ha Hb. unfold or_else. destruct (truthy a); assumption.
Qed.

Lemma text_or_default (a : value) (d : string) :
  textOrUndefined a -> exists s, a ||| VStr d = VStr s.
Proof.
  intros [-> | (s & ->)]; [now exists d |].
  unfold or_else. destruct (truthy (VStr s)); eauto.
Qed.

Lemma vesselLoop_member (csvData : list object) (i steps : nat) (row : object) :
  vesselLoop csvData i steps = Some row -> In row csvData.
Proof.
  revert i. induction steps as [|steps IH]; intros i; simpl; [discriminate |].
  destruct (nth_error csvData i) as [candidate|] eqn:E; [| discriminate].
  destruct (hasVessel candidate).
  - intros H. injection H as <-. now apply nth_error_In in E.
  - apply IH.
Qed.

Section UploadToList.
Context {host : Host}.

(** The vessel and the port of a CSV result are texts, and each of its
    events is an object of three texts. *)
Lemma csv_result_texts (first : object) (rest : list object) :
  Forall textRow (first :: rest) ->
  exists r vessel port,
    extractVesselDataFromCsv (first :: rest) = VObj r /\
    prop r "vessel" = VStr vessel /\
    prop r "port" = VStr port /\
    Forall (fun e => jsonClone e = e)
      (map toEvent (filter isEventRow (first :: rest))).
Proof.
  intros Hrows. unfold extractVesselDataFromCsv.
  set (vesselRow := match vesselLoop _ _ _ with Some row => row | None => first end).
  assert (Hvr : textRow vesselRow).
  { subst vesselRow.
    destruct (vesselLoop (first :: rest) 0 (Nat.min 5 (List.length (first :: rest))))
      as [row|] eqn:E.
    - rewrite Forall_forall in Hrows. apply Hrows. now apply vesselLoop_member in E.
    - now inversion Hrows. }
  assert (Hv : exists s, vesselField vesselRow = VStr s).
  { unfold vesselField. apply text_or_default.
    repeat apply textOrUndefined_or; now apply textRow_prop. }
  assert (Hp : exists s, prop vesselRow "Port" ||| prop vesselRow "port"
                         ||| prop vesselRow "Port Name" ||| VStr "Unknown Port"
                         = VStr s).
  { apply text_or_default.
    repeat apply textOrUndefined_or; now apply textRow_prop. }
  destruct Hv as (vessel & Hv), Hp as (port & Hp).
  eexists. exists vessel, port. split; [reflexivity |].
  split; [exact Hv |]. split; [exact Hp |].
  apply Forall_map, Forall_forall. intros row Hin. apply filter_In in Hin.
  destruct Hin as (Hin & _). rewrite Forall_forall in Hrows.
  pose proof (Hrows row Hin) as Hrow. unfold toEvent.
  destruct (text_or_default
              (prop row "Event" ||| prop row "event" ||| prop row "Event Name")
              "Unknown Event") as (n & ->);
    [repeat apply textOrUndefined_or; now apply textRow_prop |].
  destruct (text_or_default
              (prop row "Start Time" ||| prop row "start_time" ||| prop row "Start")
              "00:00") as (s & ->);
    [repeat apply textOrUndefined_or; now apply textRow_prop |].
  destruct (text_or_default
              (prop row "End Time" ||| prop row "end_time" ||| prop row "End")
              "00:00") as (e & ->);
    [repeat apply textOrUndefined_or; now apply textRow_prop |].
  reflexivity.
Qed.

(** X17.  A CSV upload that put a result with at least one event on the
    page can be saved whenever the storage holds a sequence: Save reports
    success and Load then lists, first, a record with the vessel and the
    port of the result, its events unchanged, and totalEvents equal to
    their number. *)
Theorem csv_upload_saved_and_listed (clk : clock) (text : string) (r : value)
    (evs old : list value) (storage : item)
    (Hupload : processCsvFile text = SetExtractedData r)
    (Hevents : get r "events" = VArr evs)
    (Hsome : evs <> [])
    (Hstorage : parseOrEmpty storage = Ok (VArr old)) :
  exists record rest,
    fst (saveToLaytime clk r storage) = SavedSuccessfully /\
    SavedEvents.loadSavedEvents (snd (saveToLaytime clk r storage)) = record :: rest /\
    get record "vessel" = get r "vessel" /\
    get record "port" = get r "port" /\
    get record "events" = VArr evs /\
    get record "totalEvents" = ofNat (List.length evs).
Proof.
  destruct (processCsvFile_extracted text r Hupload) as (header & lines & _ & ->).
  destruct lines as [|line1 lines]; [discriminate Hevents |].
  cbn [map] in *.
  set (first := parseRow (map trim (split "," header)) line1) in *.
  set (rest := map (parseRow (map trim (split "," header))) lines) in *.
  assert (Hrows : Forall textRow (first :: rest)).
  { constructor; [apply parseRow_textRow |].
    apply Forall_map, Forall_forall. intros line _. apply parseRow_textRow. }
  destruct (csv_result_texts first rest Hrows) as (o & vessel & port & Ho & Hv & Hp & Hclone).
  destruct (csv_result_fields first rest)
    as (o' & evs' & Ho' & _ & _ & _ & Hevs' & Hdef & Hall).
  rewrite Ho in Ho'. injection Ho' as <-. rewrite Ho in *. cbn [get] in Hevents.
  rewrite Hevs' in Hevents. injection Hevents as ->.
  assert (Hkeep : filter keepEvent evs = evs).
  { clear - Hall. induction Hall as [|e l (Hn & _) _ IH]; simpl; [reflexivity |].
    now rewrite keepEvent_name, Hn, IH. }
  assert (Hvalid : truthy (validateExtractedData (VObj o)) = true).
  { apply validate_truthy_iff, validate_true_iff. cbn [get truthy].
    rewrite Hevs'. repeat split; auto.
    - rewrite Hv. destruct (csv_result_fields first rest)
        as (o2 & _ & Ho2 & _ & Htexts & _). rewrite Ho in Ho2. injection Ho2 as <-.
      inversion Htexts as [|? ? Hvt _]; subst. now rewrite Hv in Hvt.
    - now apply gtZero_length. }
  destruct (save_load_head clk o vessel port evs old storage Hv Hp Hevs' Hvalid)
    as (Hsave & Hload & _); [now rewrite Hkeep | exact Hstorage |].
  rewrite Hkeep in *.
  set (o' := setProp "events" (VArr evs) o) in *.
  assert (Hv' : prop o' "vessel" = VStr vessel)
    by (subst o'; rewrite prop_setProp_other by discriminate; exact Hv).
  assert (Hp' : prop o' "port" = VStr port)
    by (subst o'; rewrite prop_setProp_other by discriminate; exact Hp).
  assert (He' : prop o' "events" = VArr evs)
    by (subst o'; apply prop_setProp_same).
  destruct (stored_record_fields clk o' vessel port evs Hv' Hp' He')
    as (Rv & Rp & Rt & Re & _).
  eexists. eexists.
  split; [now rewrite Hsave |]. split; [exact Hload |].
  cbn [get]. rewrite Hv, Hp.
  split; [exact Rv |]. split; [exact Rp |]. split; [| exact Rt].
  rewrite Re. f_equal. rewrite <- Hdef in Hclone.
  clear - Hclone. induction Hclone as [|e l He _ IH]; simpl; [reflexivity |].
  now rewrite He, IH.
Qed.

End UploadToList.

Lemma csv_upload_saved_and_listed_witness :
  exists record rest,
    fst (@saveToLaytime wholeHost clock0
           (@extractVesselDataFromCsv wholeHost
              [parseRow ["Vessel"; "Event"; "Start Time"; "End Time"]
                 "MV TEST,Loading,08:00,10:00"]) Absent)
    = SavedSuccessfully /\
    @SavedEvents.loadSavedEvents wholeHost
      (snd (@saveToLaytime wholeHost clock0
              (@extractVesselDataFromCsv wholeHost
                 [parseRow ["Vessel"; "Event"; "Start Time"; "End Time"]
                    "MV TEST,Loading,08:00,10:00"]) Absent))
    = record :: rest /\
    get record "vessel" = VStr "MV TEST" /\
    get record "totalEvents" = ofNat 1.
Proof.
  destruct (@csv_upload_saved_and_listed wholeHost clock0 scenarioCsv
              (@extractVesselDataFromCsv wholeHost
                 [parseRow ["Vessel"; "Event"; "Start Time"; "End Time"]
                    "MV TEST,Loading,08:00,10:00"])
              [VObj [("name", VStr "Loading"); ("start", VStr "08:00");
                     ("end", VStr "10:00")]]
              [] Absent)
    as (record & rest & Hsave & Hload & Hv & _ & _ & Ht).
  - vm_compute. reflexivity.
  - vm_compute. reflexivity.
  - discriminate.
  - reflexivity.
  - exists record, rest. split; [exact Hsave |]. split; [exact Hload |].
    split; [| exact Ht]. rewrite Hv. vm_compute. reflexivity.
Defined.

(** *** Stored text read back: the clone of a clone *)

Section NestedInduction.
Variable P : value -> Prop.
Hypothesis Hundef : P VUndef.
Hypothesis Hnull : P VNull.
Hypothesis Hbool : forall b, P (VBool b).
Hypothesis Hnum : forall n, P (VNum n).
Hypothesis Hstr : forall s, P (VStr s).
Hypothesis Harr : forall l, Forall P l -> P (VArr l).
Hypothesis Hobj : forall o, Forall (fun kv => P (snd kv)) o -> P (VObj o).

Lemma value_nested_ind : forall v, P v.
Proof.
  fix IH 1. intros [| | b | n | s | l | o];
    [exact Hundef | exact Hnull | apply Hbool | apply Hnum | apply Hstr | |].
  - apply Harr. induction l as [|x l IHl]; constructor; [apply IH | exact IHl].
  - apply Hobj. induction o as [|[k x] o IHo]; constructor; [apply IH | exact IHo].
Qed.

End NestedInduction.

Lemma jsonClone_defined (v : value) : jsonClone v <> VUndef.
Proof. destruct v as [| | | [| |] | | |]; discriminate. Qed.

Lemma value_is_undefined (v : value) : v = VUndef \/ v <> VUndef.
Proof. destruct v; auto; right; discriminate. Qed.

Lemma cloneProps_cons_defined (k : string) (v : value) (o : object) :
  v <> VUndef -> cloneProps ((k, v) :: o) = (k, jsonClone v) :: cloneProps o.
Proof. intros H. rewrite cloneProps_cons. destruct v; congruence. Qed.

Lemma jsonClone_idempotent (v : value) : jsonClone (jsonClone v) = jsonClone v.
Proof.
  induction v as [| | b | n | s | l IH | o IH] using value_nested_ind;
    try reflexivity.
  - destruct n; reflexivity.
  - rewrite !jsonClone_array. f_equal. rewrite map_map.
    induction IH as [|x l Hx _ IHl]; simpl; [reflexivity |]. now rewrite Hx, IHl.
  - rewrite !jsonClone_object. f_equal.
    induction IH as [|[k x] o Hx _ IHo]; [reflexivity |].
    simpl in Hx. destruct (value_is_undefined x) as [-> | Hdef].
    + rewrite cloneProps_cons. exact IHo.
    + rewrite (cloneProps_cons_defined k x o Hdef).
      rewrite (cloneProps_cons_defined k _ _ (jsonClone_defined x)).
      now rewrite Hx, IHo.
Qed.

Lemma map_jsonClone_twice (l : list value) :
  map jsonClone (map jsonClone l) = map jsonClone l.
Proof.
  rewrite map_map. apply map_ext. intros v. apply jsonClone_idempotent.
Qed.

Section RecentFirst.
Context {host : Host}.

(** X18.  Two successful saves in a row: Load lists the record of the
    second save first, the record of the first save second, exactly as it
    was listed after the first save, and the older records after them. *)
Theorem saves_most_recent_first (clk1 clk2 : clock) (o1 o2 : object)
    (vessel1 port1 vessel2 port2 : string) (evs1 evs2 old : list value)
    (storage : item)
    (Hvessel1 : prop o1 "vessel" = VStr vessel1)
    (Hport1 : prop o1 "port" = VStr port1)
    (Hevents1 : prop o1 "events" = VArr evs1)
    (Hvalid1 : truthy (validateExtractedData (VObj o1)) = true)
    (Hnamed1 : filter keepEvent evs1 <> [])
    (Hvessel2 : prop o2 "vessel" = VStr vessel2)
    (Hport2 : prop o2 "port" = VStr port2)
    (Hevents2 : prop o2 "events" = VArr evs2)
    (Hvalid2 : truthy (validateExtractedData (VObj o2)) = true)
    (Hnamed2 : filter keepEvent evs2 <> [])
    (Hstorage : parseOrEmpty storage = Ok (VArr old)) :
  let storage1 := snd (saveToLaytime clk1 (VObj o1) storage) in
  let storage2 := snd (saveToLaytime clk2 (VObj o2) storage1) in
  exists first second rest,
    SavedEvents.loadSavedEvents storage1 = first :: rest /\
    SavedEvents.loadSavedEvents storage2 = second :: first :: rest /\
    get first "id" = ofZ (Date_now clk1) /\
    get second "id" = ofZ (Date_now clk2).
Proof.
  intros storage1 storage2.
  destruct (save_load_head clk1 o1 vessel1 port1 evs1 old storage
              Hvessel1 Hport1 Hevents1 Hvalid1 Hnamed1 Hstorage)
    as (Hsave1 & Hload1 & Hrec1).
  set (sanitized1 := VObj (setProp "events" (VArr (filter keepEvent evs1)) o1)) in *.
  set (first := jsonClone (newItem clk1 sanitized1)) in *.
  assert (Hstorage1 : parseOrEmpty storage1 = Ok (VArr (first :: map jsonClone old))).
  { subst storage1. now rewrite Hsave1. }
  destruct (save_load_head clk2 o2 vessel2 port2 evs2 (first :: map jsonClone old)
              storage1 Hvessel2 Hport2 Hevents2 Hvalid2 Hnamed2 Hstorage1)
    as (_ & Hload2 & _).
  set (sanitized2 := VObj (setProp "events" (VArr (filter keepEvent evs2)) o2)) in *.
  exists first, (jsonClone (newItem clk2 sanitized2)).
  exists (filter (fun calc => truthy (validateExtractedData calc)) (map jsonClone old)).
  split; [exact Hload1 |].
  split.
  - subst storage2. rewrite Hload2. f_equal.
    cbn [map filter]. subst first.
    rewrite jsonClone_idempotent, Hrec1, map_jsonClone_twice. reflexivity.
  - split; apply stored_record_id.
Qed.

End RecentFirst.

Lemma saves_most_recent_first_witness :
  exists first second rest,
    @SavedEvents.loadSavedEvents wholeHost
      (snd (@saveToLaytime wholeHost clock0 namedResult Absent)) = first :: rest /\
    @SavedEvents.loadSavedEvents wholeHost
      (snd (@saveToLaytime wholeHost clock1 namedResult
              (snd (@saveToLaytime wholeHost clock0 namedResult Absent))))
      = second :: first :: rest /\
    get first "id" = ofZ 1700000000000 /\
    get second "id" = ofZ 1700000060000.
Proof.
  apply (@saves_most_recent_first wholeHost clock0 clock1 namedProps namedProps
           "MV TEST" "Rotterdam" "MV TEST" "Rotterdam" namedEvents namedEvents
           [] Absent);
    try reflexivity; discriminate.
Defined.

(** *** The list on the page and the storage stay in step *)

Lemma cloneProps_length (o : object) : List.length (cloneProps o) <= List.length o.
Proof.
  induction o as [|[k v] o IH]; [apply Nat.le_refl |].
  rewrite cloneProps_cons. destruct v; simpl; lia.
Qed.

Lemma cloneProps_stable_cons (k : string) (v : value) (o : object) :
  cloneProps ((k, v) :: o) = (k, v) :: o ->
  v <> VUndef /\ jsonClone v = v /\ cloneProps o = o.
Proof.
  intros H. destruct (value_is_undefined v) as [-> | Hdef].
  - rewrite cloneProps_cons in H. pose proof (cloneProps_length o) as Hlen.
    rewrite H in Hlen. simpl in Hlen. lia.
  - rewrite (cloneProps_cons_defined k v o Hdef) in H. injection H as Hv Ho. auto.
Qed.

Lemma cloneProps_setProp_stable (k : string) (v : value) (o : object) :
  cloneProps o = o -> v <> VUndef -> jsonClone v = v ->
  cloneProps (setProp k v o) = setProp k v o.
Proof.
  intros Ho Hdef Hv. induction o as [|[k' x] o IH]; simpl.
  - rewrite (cloneProps_cons_defined k v [] Hdef), Hv. reflexivity.
  - destruct (cloneProps_stable_cons k' x o Ho) as (Hx & Hcx & Ho').
    destruct (k =? k').
    + rewrite (cloneProps_cons_defined k v o Hdef), Hv, Ho'. reflexivity.
    + rewrite (cloneProps_cons_defined k' x _ Hx), Hcx, (IH Ho'). reflexivity.
Qed.

Section InStep.
Context {host : Host}.

Lemma load_stable_list (l : list value) :
  Forall (fun e => validateExtractedData e = VBool true /\ jsonClone e = e) l ->
  SavedEvents.loadSavedEvents (Document (VArr (map jsonClone l))) = l.
Proof.
  intros Hall. unfold SavedEvents.loadSavedEvents.
  cbn [parseOrEmpty bind try_catch].
  induction Hall as [|e l (Hvalid & Hstable) _ IH]; [reflexivity |].
  cbn [map filter]. rewrite Hstable, Hvalid. cbn [truthy]. now rewrite IH.
Qed.

(** X19.  When the list of the page holds records as they were read
    from stored JSON and that pass the gate, a confirmed delete and a saved
    title leave the storage in step with the page: loading the storage
    again returns exactly the list the page shows after the action. *)
Theorem page_list_in_step_with_storage (savedEvents : list value) (storage : item)
    (editTitle : string) (id : number)
    (Hrecords : Forall (fun e => validateExtractedData e = VBool true
                                 /\ jsonClone e = e) savedEvents) :
  (exists updated storage',
     SavedEvents.handleDelete true savedEvents storage id = Ok (updated, storage') /\
     SavedEvents.loadSavedEvents storage' = updated)
  /\ (exists updated storage',
        SavedEvents.handleSaveTitle savedEvents editTitle id = Ok (updated, storage') /\
        SavedEvents.loadSavedEvents storage' = updated).
Proof.
  assert (Htruthy : Forall (fun e => truthy e = true) savedEvents).
  { eapply Forall_impl; [| exact Hrecords]. intros e (He & _).
    apply validate_true_iff in He. tauto. }
  split.
  - eexists. eexists. split.
    + unfold SavedEvents.handleDelete.
      rewrite (filterM_total _ (fun e => negb (strictEqNum (get e "id") id))).
      * cbn [bind]. unfold setItem. rewrite jsonClone_array. reflexivity.
      * eapply Forall_impl; [| exact Htruthy]. intros e He. cbv beta.
        now rewrite (getProp_truthy e "id" He).
    + apply load_stable_list. apply Forall_forall. intros e He.
      apply filter_In in He. destruct He as (He & _).
      rewrite Forall_forall in Hrecords. now apply Hrecords.
  - set (rename := fun event =>
           if strictEqNum (get event "id") id
           then VObj (setProp "title" (VStr editTitle) (spread event))
           else event).
    exists (map rename savedEvents). eexists. split.
    + unfold SavedEvents.handleSaveTitle. rewrite (mapM_total _ rename).
      * cbn [bind]. unfold setItem. rewrite jsonClone_array. reflexivity.
      * eapply Forall_impl; [| exact Htruthy]. intros e He. cbv beta.
        now rewrite (getProp_truthy e "id" He).
    + apply load_stable_list. apply Forall_forall. intros e He.
      apply in_map_iff in He. destruct He as (e0 & <- & Hin).
      rewrite Forall_forall in Hrecords. destruct (Hrecords _ Hin) as (Hvalid & Hstable).
      unfold rename. destruct (strictEqNum (get e0 "id") id); [| auto].
      destruct (valid_is_object _ (proj2 (validate_truthy_iff _) Hvalid)) as (o & ->).
      cbn [spread]. split; [now apply renamed_still_valid |].
      rewrite jsonClone_object in *. injection Hstable as Hstable.
      f_equal. apply cloneProps_setProp_stable; [exact Hstable | discriminate | reflexivity].
Qed.

End InStep.

Lemma page_list_in_step_with_storage_witness :
  exists updated storage',
    SavedEvents.handleSaveTitle [recordA; recordB] "Coal run"
      (Finite (inject_Z 1700000000001)) = Ok (updated, storage') /\
    @SavedEvents.loadSavedEvents wholeHost storage' = updated.
Proof.
  apply (proj2 (@page_list_in_step_with_storage wholeHost [recordA; recordB] Absent
                  "Coal run" (Finite (inject_Z 1700000000001))
                  ltac:(repeat constructor))).
Defined.

(** *** Edits of the current result and the validation gate *)

Lemma arraySet_not_empty (l : list value) (i : nat) (v : value) :
  arraySet l i v <> [].
Proof.
  destruct l as [|x l]; cbn [arraySet].
  - destruct (repeat VUndef i); discriminate.
  - destruct i; discriminate.
Qed.

Lemma removeAt_empty_iff (l : list value) (index : nat) :
  l <> [] ->
  (removeAt l index <> [] <-> 2 <= List.length l \/ List.length l <= index).
Proof.
  intros Hne.
  destruct (Nat.lt_ge_cases index (List.length l)) as [Hin | Hout].
  - pose proof (removeAt_length l index Hin) as Hlen.
    destruct (removeAt l index) as [|y r]; simpl in Hlen; split.
    + intros H. now elim H.
    + intros [H | H]; lia.
    + intros _. lia.
    + intros _. discriminate.
  - rewrite (removeAt_out_of_range l index Hout). tauto.
Qed.

Section EditsAndGate.
Context {host : Host}.

Lemma valid_with_events (o : object) (evs : list value) :
  validateExtractedData (VObj o) = VBool true ->
  (validateExtractedData (VObj (setProp "events" (VArr evs) o)) = VBool true
   <-> evs <> []).
Proof.
  rewrite !validate_true_iff. cbn [get truthy].
  rewrite prop_setProp_same, prop_setProp_other by discriminate.
  rewrite gtZero_length. cbn [truthy]. tauto.
Qed.

(** X20.  On a valid result with an event array, saving an edit of a row
    always leaves a result that passes the gate; deleting a row leaves a
    valid result exactly when another row remains (or the index was past
    the end); and after the only row is deleted Save is rejected with the
    validation notice and stores nothing. *)
Theorem edits_and_the_gate (o u : object) (evs : list value) (index : nat)
    (Hevents : prop o "events" = VArr evs)
    (Hvalid : validateExtractedData (VObj o) = VBool true) :
  (exists o',
     handleEventUpdate (VObj o) index (VObj u) = Ok (VObj o') /\
     validateExtractedData (VObj o') = VBool true)
  /\ (exists o',
        handleEventDelete (VObj o) index = Ok (VObj o') /\
        (validateExtractedData (VObj o') = VBool true
         <-> 2 <= List.length evs \/ List.length evs <= index))
  /\ (List.length evs = 1 ->
      forall (clk : clock) (storage : item),
      exists o',
        handleEventDelete (VObj o) 0 = Ok (VObj o') /\
        saveToLaytime clk (VObj o') storage = (InvalidOrIncomplete, storage)).
Proof.
  assert (Hne : evs <> []).
  { apply validate_true_iff in Hvalid. destruct Hvalid as (_ & _ & _ & Hl).
    cbn [get] in Hl. rewrite Hevents in Hl. now apply gtZero_length in Hl. }
  assert (Hdel : forall i, handleEventDelete (VObj o) i
                           = Ok (VObj (setProp "events" (VArr (removeAt evs i)) o))).
  { intros i. unfold handleEventDelete. simpl. rewrite Hevents. reflexivity. }
  split; [| split].
  - eexists. split; [apply (handleEventUpdate_array o u evs index Hevents) |].
    apply (valid_with_events o _ Hvalid), arraySet_not_empty.
  - eexists. split; [apply Hdel |].
    rewrite (valid_with_events o _ Hvalid). now apply removeAt_empty_iff.
  - intros Hone clk storage. eexists. split; [apply Hdel |].
    destruct evs as [|e [|e' evs]]; try discriminate Hone. cbn [removeAt].
    assert (Hinvalid : truthy (validateExtractedData
                                 (VObj (setProp "events" (VArr []) o))) = false).
    { apply not_true_is_false. rewrite validate_truthy_iff.
      rewrite (valid_with_events o [] Hvalid). intros H. now apply H. }
    unfold saveToLaytime. cbn [truthy negb]. now rewrite Hinvalid.
Qed.

(** X21.  The table shows, for every event that a CSV upload put on the
    page, its name in the first cell and nothing in the two time cells:
    the start and end that were read from the file are not displayed. *)
Theorem csv_rows_rendered (text : string) (vesselData : value) (evs : list value)
    (Hupload : processCsvFile text = SetExtractedData vesselData)
    (Hevents : get vesselData "events" = VArr evs) :
  Forall (fun e => exists name,
              nameCell e = Ok name /\ truthy name = true /\
              name = get e "name" /\
              truthy (get e "start") = true /\ truthy (get e "end") = true /\
              startCell e = Ok VUndef /\ endCell e = Ok VUndef) evs.
Proof.
  destruct (processCsvFile_extracted text vesselData Hupload)
    as (header & rest & _ & ->).
  rewrite (extracted_events _ evs Hevents).
  apply Forall_forall. intros e He. apply in_map_iff in He.
  destruct He as (row & <- & _).
  destruct (toEvent_fields_truthy row) as (n & s & en & -> & Hn & Hs & Hen).
  exists n. unfold nameCell, startCell, endCell.
  cbn [getProp get bind prop lookup String.eqb Ascii.eqb Bool.eqb].
  rewrite (or_else_truthy_l n VUndef Hn). auto 10.
Qed.

End EditsAndGate.

Lemma edits_and_the_gate_witness :
  exists o',
    handleEventDelete recordA 0 = Ok (VObj o') /\
    @saveToLaytime wholeHost clock0 (VObj o') Absent = (InvalidOrIncomplete, Absent).
Proof.
  apply (proj2 (proj2
           (@edits_and_the_gate wholeHost
              [("id", ofZ 1700000000000); ("title", VStr "MV TEST - 11/14/2023");
               ("vessel", VStr "MV TEST"); ("port", VStr "Rotterdam");
               ("events", VArr [VObj [("name", VStr "Loading");
                                      ("start", VStr "08:00");
                                      ("end", VStr "10:00")]])]
              [] _ 0 eq_refl eq_refl)) eq_refl clock0 Absent).
Defined.

Lemma csv_rows_rendered_witness :
  Forall (fun e => exists name,
              nameCell e = Ok name /\ truthy name = true /\
              name = get e "name" /\
              truthy (get e "start") = true /\ truthy (get e "end") = true /\
              startCell e = Ok VUndef /\ endCell e = Ok VUndef)
    [VObj [("name", VStr "Loading"); ("start", VStr "08:00"); ("end", VStr "10:00")]].
Proof.
  apply (@csv_rows_rendered wholeHost scenarioCsv
           (@extractVesselDataFromCsv wholeHost
              [parseRow ["Vessel"; "Event"; "Start Time"; "End Time"]
                 "MV TEST,Loading,08:00,10:00"])).
  - vm_compute. reflexivity.
  - vm_compute. reflexivity.
Defined.

(** *** Edges of the sanitizer *)

Lemma setProp_twice (k : string) (v w : value) (o : object) :
  setProp k w (setProp k v o) = setProp k w o.
Proof.
  induction o as [|[k' x] o IH]; simpl.
  - now rewrite String.eqb_refl.
  - destruct (k =? k') eqn:E; simpl.
    + now rewrite String.eqb_refl.
    + now rewrite E, IH.
Qed.

Lemma filter_twice {A : Type} (f : A -> bool) (l : list A) :
  filter f (filter f l) = filter f l.
Proof.
  induction l as [|a l IH]; simpl; [reflexivity |].
  destruct (f a) eqn:E; simpl; [rewrite E, IH |]; auto.
Qed.

(** X22.  The sanitizer returns null for a falsy input; on an object
    whose events are missing or null it adds an empty events array; on an
    events value that is neither an array nor null or undefined it throws a
    type error; null entries of an events array are dropped with the
    unnamed ones; and sanitizing a sanitized object changes nothing. *)
Theorem sanitizeDataBeforeSave_edges (o : object) :
  (forall data, truthy data = false -> sanitizeDataBeforeSave data = Ok VNull)
  /\ (prop o "events" = VUndef \/ prop o "events" = VNull ->
      sanitizeDataBeforeSave (VObj o) = Ok (VObj (setProp "events" (VArr []) o)))
  /\ ((forall evs, prop o "events" <> VArr evs) ->
      prop o "events" <> VUndef -> prop o "events" <> VNull ->
      sanitizeDataBeforeSave (VObj o) = Throw TypeError)
  /\ (forall evs o',
        prop o "events" = VArr evs ->
        sanitizeDataBeforeSave (VObj o) = Ok (VObj o') ->
        ~ In VNull (match prop o' "events" with VArr kept => kept | _ => [VNull] end))
  /\ (forall o',
        sanitizeDataBeforeSave (VObj o) = Ok (VObj o') ->
        sanitizeDataBeforeSave (VObj o') = Ok (VObj o')).
Proof.
  split; [| split; [| split; [| split]]].
  - intros data H. unfold sanitizeDataBeforeSave. now rewrite H.
  - unfold sanitizeDataBeforeSave. cbn [truthy negb get spread].
    intros [-> | ->]; reflexivity.
  - intros Harr Hu Hn. unfold sanitizeDataBeforeSave. cbn [truthy negb get spread].
    destruct (prop o "events"); try congruence; reflexivity.
  - intros evs o' Hevs Hsan. rewrite (sanitize_object o evs Hevs) in Hsan.
    injection Hsan as <-. rewrite prop_setProp_same.
    intros Hin. apply filter_In in Hin. destruct Hin as (_ & Hkeep). discriminate Hkeep.
  - intros o' Hsan. unfold sanitizeDataBeforeSave in *.
    cbn [truthy negb get spread] in *.
    destruct (prop o "events") as [| | | | |evs|] eqn:E;
      cbn [optionalFilter bind or_else truthy] in Hsan; try discriminate Hsan;
      injection Hsan as <-; rewrite prop_setProp_same;
      cbn [optionalFilter bind or_else truthy filter];
      rewrite ?filter_twice, setProp_twice; reflexivity.
Qed.

Lemma sanitizeDataBeforeSave_edges_witness :
  sanitizeDataBeforeSave (VObj [("vessel", VStr "MV TEST")])
  = Ok (VObj [("vessel", VStr "MV TEST"); ("events", VArr [])])
  /\ sanitizeDataBeforeSave textEventsResult = Throw TypeError.
Proof.
  split.
  - apply (proj1 (proj2 (sanitizeDataBeforeSave_edges [("vessel", VStr "MV TEST")]))).
    now left.
  - apply (proj1 (proj2 (proj2 (sanitizeDataBeforeSave_edges
             [("vessel", VStr "MV TEST"); ("events", VStr "abc")]))));
      intros; discriminate.
Defined.

(** *** A null entry among the events of a document *)

Section NullEvent.
Context {host : Host}.

(** X23.  A document payload whose events array holds a null entry is
    accepted as it is: the client hands the array on, the result passes
    the validation gate, yet the table throws a type error on the null
    row when it computes the flag or the cells; the sanitizer drops the
    entry when the result is saved. *)
Theorem null_event_reaches_table (url : string)
    (fetch : string -> value -> result response) (formData : value)
    (payload : object) (evs : list value)
    (Hconfigured : url <> EmptyString)
    (Hfetch : fetch (stripTrailingSlash url ++ "/extract")%string formData
              = Ok (Response true (Ok (VObj payload))))
    (Hevents : prop payload "events" = VArr evs)
    (Hnull : In VNull evs) :
  exists r,
    extractEvents (Some url) fetch formData = Ok (VObj r) /\
    prop r "events" = VArr evs /\
    validateExtractedData (VObj r) = VBool true /\
    isMissingTime VNull = Throw TypeError /\
    nameCell VNull = Throw TypeError /\
    (exists r',
       sanitizeDataBeforeSave (VObj r) = Ok (VObj r') /\
       prop r' "events" = VArr (filter keepEvent evs) /\
       ~ In VNull (filter keepEvent evs)).
Proof.
  eexists. split; [apply (extractEvents_success url fetch formData payload
                            Hconfigured Hfetch) |].
  rewrite Hevents.
  assert (He : prop [("vessel", prop payload "vessel" ||| VStr "Unknown Vessel");
                     ("cargo", prop payload "cargo" ||| VStr EmptyString);
                     ("port", prop payload "port" ||| VStr EmptyString);
                     ("events", VArr evs)] "events" = VArr evs) by reflexivity.
  split; [exact He |]. split.
  { apply validate_true_iff. cbn [get truthy]. rewrite He.
    unfold prop at 1. cbn [lookup String.eqb Ascii.eqb Bool.eqb].
    repeat split.
    - now apply or_else_default_truthy.
    - apply gtZero_length. intros ->. inversion Hnull. }
  split; [reflexivity |]. split; [reflexivity |].
  eexists. split; [apply (sanitize_object _ evs He) |].
  split; [apply prop_setProp_same |].
  intros Hin. apply filter_In in Hin. destruct Hin as (_ & Hkeep). discriminate Hkeep.
Qed.

End NullEvent.

Lemma null_event_reaches_table_witness :
  exists r,
    extractEvents (Some "http://localhost:8000")
      (fun _ _ => Ok (Response true (Ok (VObj [("events", VArr [VNull])])))) VNull
    = Ok (VObj r) /\
    prop r "events" = VArr [VNull] /\
    @validateExtractedData wholeHost (VObj r) = VBool true.
Proof.
  destruct (@null_event_reaches_table wholeHost "http://localhost:8000"
              (fun _ _ => Ok (Response true (Ok (VObj [("events", VArr [VNull])]))))
              VNull [("events", VArr [VNull])] [VNull]
              ltac:(discriminate) eq_refl eq_refl (or_introl eq_refl))
    as (r & Hr & He & Hv & _).
  exists r. auto.
Defined.
